(** * Uber Ads MCP server: schema layer, remote client and tool dispatcher

    A shallow embedding of [src/uber_ads_mcp_server/types.py],
    [uber_ads_client.py] and [server.py].

    - Python values that travel as JSON ([Dict[str, Any]], response bodies,
      [model_dump()] results) are the inductive [json]; a dict is an
      association list in insertion order.
    - pydantic models are records, one module per class, each with the
      [validate] function that building the model from an unpacked mapping
      runs, and the [model_dump] that the dispatcher serialises.
    - Exceptions are the inductive [exn]; code that can raise and that talks
      to the network lives in the monad [M], a state monad over the [World]
      (what the remote answers, and the log of requests that were sent)
      with an exception result.
    - What the libraries decide and the repository does not (pydantic's lax
      numeric coercions, the text of library exceptions, [json.dumps]) is the
      class [Runtime]; the theorems hold for every runtime, and the concrete
      runs are made with [Sample.runtime]. *)

From Stdlib Require Import List String Ascii ZArith Bool Lia PeanoNat.
From Stdlib Require Import Floats.PrimFloat.
Import ListNotations.
Local Open Scope list_scope.
Local Open Scope string_scope.

Set Implicit Arguments.
Set Warnings "-register-all".

(** ** Python values *)

(** The values [json.loads] produces and [json.dumps] accepts.  A Python
    [float] is an IEEE binary64 number. *)
Inductive json : Type :=
| JNull
| JBool (b : bool)
| JInt (n : Z)
| JFloat (f : float)
| JStr (s : string)
| JList (l : list json)
| JDict (d : list (string * json)).

(** [Dict[str, Any]]. *)
Definition dict := list (string * json).

(** [d.get(k)] on an insertion-ordered dict. *)
Fixpoint dict_get {A : Type} (k : string) (d : list (string * A)) : option A :=
  match d with
  | [] => None
  | (k', v) :: d' => if String.eqb k' k then Some v else dict_get k d'
  end.

(** [d[k] = v]: replaces the value of an existing key in place, appends a
    new key. *)
Fixpoint dict_set {A : Type} (k : string) (v : A) (d : list (string * A))
  : list (string * A) :=
  match d with
  | [] => [(k, v)]
  | (k', v') :: d' =>
      if String.eqb k' k then (k, v) :: d' else (k', v') :: dict_set k v d'
  end.

(** [d.update(other)]. *)
Definition dict_update {A : Type} (d other : list (string * A))
  : list (string * A) :=
  fold_left (fun acc kv => dict_set (fst kv) (snd kv) acc) other d.

Definition keys {A : Type} (d : list (string * A)) : list string := map fst d.

(** ** pydantic validation errors *)

(** One step of an error location: a field or dict key, or a list index. *)
Inductive loc_item : Type :=
| LKey (k : string)
| LIdx (i : nat).

Inductive error_type : Type :=
| missing
| string_type
| int_type
| int_parsing
| int_from_float
| float_type
| float_parsing
| literal_error
| list_type
| dict_type
| model_type.

Record line_error : Type := LineError {
  err_loc : list loc_item;
  err_type : error_type
}.

(** The outcome of validating one value: the value, or the errors found, of
    which there is at least one.  pydantic collects the errors of all fields
    before it raises. *)
Inductive validation (A : Type) : Type :=
| Valid (a : A)
| Invalid (e : line_error) (es : list line_error).
Arguments Valid {A} a.
Arguments Invalid {A} e es.

Definition errors_of {A : Type} (v : validation A) : list line_error :=
  match v with
  | Valid _ => []
  | Invalid e es => e :: es
  end.

Definition is_valid {A : Type} (v : validation A) : bool :=
  match v with
  | Valid _ => true
  | Invalid _ _ => false
  end.

Definition fail_with {A : Type} (t : error_type) : validation A :=
  Invalid (LineError [] t) [].

Definition push_loc (i : loc_item) (e : line_error) : line_error :=
  LineError (i :: err_loc e) (err_type e).

(** Errors of a nested value are reported under the location of the value. *)
Definition at_loc {A : Type} (i : loc_item) (v : validation A) : validation A :=
  match v with
  | Valid a => Valid a
  | Invalid e es => Invalid (push_loc i e) (map (push_loc i) es)
  end.

Definition vmap {A B : Type} (f : A -> B) (v : validation A) : validation B :=
  match v with
  | Valid a => Valid (f a)
  | Invalid e es => Invalid e es
  end.

(** Applicative application: both sides are validated and their errors are
    listed in order. *)
Definition vap {A B : Type} (vf : validation (A -> B)) (va : validation A)
  : validation B :=
  match vf, va with
  | Valid f, Valid a => Valid (f a)
  | Valid _, Invalid e es => Invalid e es
  | Invalid e es, Valid _ => Invalid e es
  | Invalid e es, Invalid e' es' => Invalid e (es ++ e' :: es')%list
  end.

Declare Scope validation_scope.
Delimit Scope validation_scope with validation.
Notation "f <$> v" := (vmap f v) (at level 61, left associativity)
  : validation_scope.
Notation "vf <*> va" := (vap vf va) (at level 61, left associativity)
  : validation_scope.

(** A field without a default: absent is the error [missing]. *)
Definition required {A : Type} (d : dict) (k : string)
  (v : json -> validation A) : validation A :=
  match dict_get k d with
  | None => Invalid (LineError [LKey k] missing) []
  | Some x => at_loc (LKey k) (v x)
  end.

(** A field with a default: absent is the default, taken as it is. *)
Definition with_default {A : Type} (d : dict) (k : string)
  (v : json -> validation A) (default : A) : validation A :=
  match dict_get k d with
  | None => Valid default
  | Some x => at_loc (LKey k) (v x)
  end.

(** ** Field validators (pydantic, lax mode, Python input) *)

(** [str]: only a string is accepted. *)
Definition v_str (x : json) : validation string :=
  match x with
  | JStr s => Valid s
  | _ => fail_with string_type
  end.

(** [Optional[T]]: [None], or a [T]. *)
Definition v_optional {A : Type} (v : json -> validation A) (x : json)
  : validation (option A) :=
  match x with
  | JNull => Valid None
  | _ => vmap Some (v x)
  end.

(** [Literal[...]]: the value is one of the listed strings. *)
Definition v_literal {A : Type} (table : list (string * A)) (x : json)
  : validation A :=
  match x with
  | JStr s =>
      match dict_get s table with
      | Some a => Valid a
      | None => fail_with literal_error
      end
  | _ => fail_with literal_error
  end.

(** The items of a list, validated from index [i] on; every item is
    validated and the errors carry the index. *)
Fixpoint v_items {A : Type} (v : json -> validation A) (i : nat)
  (l : list json) : validation (list A) :=
  match l with
  | [] => Valid []
  | x :: l' => vap (vmap cons (at_loc (LIdx i) (v x))) (v_items v (S i) l')
  end.

(** [List[T]]. *)
Definition v_list {A : Type} (v : json -> validation A) (x : json)
  : validation (list A) :=
  match x with
  | JList l => v_items v 0 l
  | _ => fail_with list_type
  end.

(** The entries of a [Dict[str, T]]. *)
Fixpoint v_entries {A : Type} (v : json -> validation A)
  (d : list (string * json)) : validation (list (string * A)) :=
  match d with
  | [] => Valid []
  | (k, x) :: d' =>
      vap (vmap (fun a rest => (k, a) :: rest) (at_loc (LKey k) (v x)))
          (v_entries v d')
  end.

(** [Dict[str, T]]. *)
Definition v_dict {A : Type} (v : json -> validation A) (x : json)
  : validation (list (string * A)) :=
  match x with
  | JDict d => v_entries v d
  | _ => fail_with dict_type
  end.

(** A field whose type is a model: a mapping is validated against it. *)
Definition v_model {A : Type} (validate : dict -> validation A) (x : json)
  : validation A :=
  match x with
  | JDict d => validate d
  | _ => fail_with model_type
  end.

(** The declaration of one field of a model: its name, whether it has no
    default, and which values its type accepts. *)
Record field_schema : Type := Field {
  field_name : string;
  field_required : bool;
  field_accepts : json -> bool
}.

Definition accepts {A : Type} (v : json -> validation A) (x : json) : bool :=
  is_valid (v x).

Definition d_optional {A : Type} (dump : A -> json) (x : option A) : json :=
  match x with
  | None => JNull
  | Some a => dump a
  end.

Definition d_list {A : Type} (dump : A -> json) (l : list A) : json :=
  JList (map dump l).

Definition d_dict {A : Type} (dump : A -> json) (d : list (string * A)) : json :=
  JDict (map (fun kv => (fst kv, dump (snd kv))) d).

(** ** HTTP requests and responses *)

(** A value of the [params] mapping handed to [requests]: a scalar, or a
    list that is sent as a repeated parameter. *)
Inductive param_value : Type :=
| PInt (n : Z)
| PStr (s : string)
| PList (l : list string).

Module Request.
Record t : Type := mk {
  method : string;
  url : string;
  params : list (string * param_value);
  headers : list (string * string);
  timeout : Z
}.
End Request.

(** What the client reads of a [requests.Response]: [json_body] is the value
    [response.json()] returns, [None] when the body does not decode;
    [retry_after] says whether a non-empty Retry-After header came with it. *)
Module Response.
Record t : Type := mk {
  status_code : Z;
  reason : string;
  content : string;
  json_body : option json;
  retry_after : bool
}.

(** [Response.ok], which is also the truth value of a response: the status
    is not a client or server error. *)
Definition ok (r : t) : bool :=
  negb ((400 <=? status_code r)%Z && (status_code r <? 600)%Z).

(** [response.json()] returns the decoded body or fails. *)
Definition json (r : t) : option json := json_body r.
End Response.

(** What one attempt on the wire ends in. *)
Inductive Outcome : Type :=
| Responded (r : Response.t)
| Failed (err : string).

(** ** Exceptions *)

Inductive exn : Type :=
| ValidationError (title : string) (e : line_error) (es : list line_error)
| TypeError (culprit : json)
| AttributeError (culprit : json)
| HTTPError (response : Response.t)
| JSONDecodeError (response : Response.t)
| ConnectionError (err : string)
| RetryError (response : Response.t)
| UberAdsAPIError (message : string) (status : option Z).

(** [isinstance(e, requests.exceptions.HTTPError)]. *)
Definition is_HTTPError (e : exn) : bool :=
  match e with
  | HTTPError _ => true
  | _ => false
  end.

(** [isinstance(e, requests.exceptions.RequestException)]: the base class of
    everything requests raises. *)
Definition is_RequestException (e : exn) : bool :=
  match e with
  | HTTPError _ | JSONDecodeError _ | ConnectionError _ | RetryError _ => true
  | _ => false
  end.

(** ** What the libraries decide *)

(** The parts of pydantic-core, requests, json and the interpreter that the
    repository relies on and does not define.  Nothing is assumed of them. *)
Class Runtime : Type := {
  (** lax coercion of a numeric string to [int] *)
  str_as_int : string -> option Z;
  (** lax coercion of a numeric string to [float] *)
  str_as_float : string -> option float;
  (** [float(n)], undefined when [n] is out of range *)
  int_as_float : Z -> option float;
  (** an integral, finite float as an [int] *)
  float_as_int : float -> option Z;
  (** [str(e)] of an exception the libraries or the interpreter raise *)
  exc_str : exn -> string;
  (** [str(x)], as an f-string formats a value that is not a string *)
  py_str : json -> string;
  (** [json.dumps(x, indent=2, default=str)] *)
  json_dumps : json -> string;
  (** [requests.utils.default_headers()] *)
  default_headers : list (string * string)
}.

Section NumericValidators.
Context `{Runtime}.

(** [int]: an int, a bool, a float without fractional part, or a numeric
    string. *)
Definition v_int (x : json) : validation Z :=
  match x with
  | JInt n => Valid n
  | JBool b => Valid (Z.b2z b)
  | JFloat f =>
      match float_as_int f with
      | Some n => Valid n
      | None => fail_with int_from_float
      end
  | JStr s =>
      match str_as_int s with
      | Some n => Valid n
      | None => fail_with int_parsing
      end
  | _ => fail_with int_type
  end.

(** [float]: a float, an int or bool, or a numeric string. *)
Definition v_float (x : json) : validation float :=
  match x with
  | JFloat f => Valid f
  | JInt n =>
      match int_as_float n with
      | Some f => Valid f
      | None => fail_with float_type
      end
  | JBool b =>
      match int_as_float (Z.b2z b) with
      | Some f => Valid f
      | None => fail_with float_type
      end
  | JStr s =>
      match str_as_float s with
      | Some f => Valid f
      | None => fail_with float_parsing
      end
  | _ => fail_with float_type
  end.
End NumericValidators.

(** [str(e)]: [UberAdsAPIError.__init__] hands its message to
    [Exception.__init__]. *)
Definition str `{Runtime} (e : exn) : string :=
  match e with
  | UberAdsAPIError message _ => message
  | _ => exc_str e
  end.

(** Building a model from an unpacked value: the value has to be a mapping
    (a [TypeError] otherwise), and its fields have to validate. *)
Definition construct {A : Type} (title : string)
  (validate : dict -> validation A) (x : json) : exn + A :=
  match x with
  | JDict d =>
      match validate d with
      | Valid a => inr a
      | Invalid e es => inl (ValidationError title e es)
      end
  | _ => inl (TypeError x)
  end.

(** ** types.py *)

Module UberAdsConfig.
Record t : Type := mk {
  client_id : option string;
  client_secret : option string;
  base_url : string
}.
End UberAdsConfig.

Module AdAccount.
Record t : Type := mk {
  id : string;
  name : string;
  currency : string;
  timezone : string;
  status : string;
  created_at : string;
  updated_at : string
}.

Definition validate (d : dict) : validation t :=
  (mk <$> required d "id" v_str
      <*> required d "name" v_str
      <*> required d "currency" v_str
      <*> required d "timezone" v_str
      <*> required d "status" v_str
      <*> required d "created_at" v_str
      <*> required d "updated_at" v_str)%validation.

Definition model_dump (a : t) : json :=
  JDict [("id", JStr (id a)); ("name", JStr (name a));
         ("currency", JStr (currency a)); ("timezone", JStr (timezone a));
         ("status", JStr (status a)); ("created_at", JStr (created_at a));
         ("updated_at", JStr (updated_at a))].
End AdAccount.

Module LocationTargeting.
Inductive kind : Type := city | region | country | postal_code.

Definition kind_str (k : kind) : string :=
  match k with
  | city => "city"
  | region => "region"
  | country => "country"
  | postal_code => "postal_code"
  end.

Definition kinds : list (string * kind) :=
  map (fun k => (kind_str k, k)) [city; region; country; postal_code].

Record t : Type := mk {
  type : kind;
  value : string;
  radius : option Z
}.

Section Validate.
Context `{Runtime}.

Definition validate (d : dict) : validation t :=
  (mk <$> required d "type" (v_literal kinds)
      <*> required d "value" v_str
      <*> with_default d "radius" (v_optional v_int) None)%validation.
End Validate.

Definition model_dump (a : t) : json :=
  JDict [("type", JStr (kind_str (type a))); ("value", JStr (value a));
         ("radius", d_optional JInt (radius a))].
End LocationTargeting.

Module DemographicTargeting.
Inductive gender : Type := male | female | all.

Definition gender_str (g : gender) : string :=
  match g with
  | male => "male"
  | female => "female"
  | all => "all"
  end.

Definition gender_values : list (string * gender) :=
  map (fun g => (gender_str g, g)) [male; female; all].

Record t : Type := mk {
  age_min : option Z;
  age_max : option Z;
  genders : option (list gender)
}.

Section Validate.
Context `{Runtime}.

Definition validate (d : dict) : validation t :=
  (mk <$> with_default d "age_min" (v_optional v_int) None
      <*> with_default d "age_max" (v_optional v_int) None
      <*> with_default d "genders"
            (v_optional (v_list (v_literal gender_values))) None)%validation.
End Validate.

Definition model_dump (a : t) : json :=
  JDict [("age_min", d_optional JInt (age_min a));
         ("age_max", d_optional JInt (age_max a));
         ("genders",
          d_optional (d_list (fun g => JStr (gender_str g))) (genders a))].
End DemographicTargeting.

Module CampaignTargeting.
Record t : Type := mk {
  locations : option (list LocationTargeting.t);
  demographics : option DemographicTargeting.t;
  interests : option (list string);
  behaviors : option (list string)
}.

Section Validate.
Context `{Runtime}.

Definition validate (d : dict) : validation t :=
  (mk <$> with_default d "locations"
            (v_optional (v_list (v_model LocationTargeting.validate))) None
      <*> with_default d "demographics"
            (v_optional (v_model DemographicTargeting.validate)) None
      <*> with_default d "interests" (v_optional (v_list v_str)) None
      <*> with_default d "behaviors" (v_optional (v_list v_str)) None
  )%validation.
End Validate.

Definition model_dump (a : t) : json :=
  JDict [("locations",
          d_optional (d_list LocationTargeting.model_dump) (locations a));
         ("demographics",
          d_optional DemographicTargeting.model_dump (demographics a));
         ("interests", d_optional (d_list JStr) (interests a));
         ("behaviors", d_optional (d_list JStr) (behaviors a))].
End CampaignTargeting.

Module CreativeAsset.
Inductive kind : Type := image | video | text_asset.

Definition kind_str (k : kind) : string :=
  match k with
  | image => "image"
  | video => "video"
  | text_asset => "text"
  end.

Definition kinds : list (string * kind) :=
  map (fun k => (kind_str k, k)) [image; video; text_asset].

Record t : Type := mk {
  id : string;
  type : kind;
  url : option string;
  text : option string;
  dimensions : option (list (string * Z))
}.

Section Validate.
Context `{Runtime}.

Definition validate (d : dict) : validation t :=
  (mk <$> required d "id" v_str
      <*> required d "type" (v_literal kinds)
      <*> with_default d "url" (v_optional v_str) None
      <*> with_default d "text" (v_optional v_str) None
      <*> with_default d "dimensions" (v_optional (v_dict v_int)) None
  )%validation.
End Validate.

Definition model_dump (a : t) : json :=
  JDict [("id", JStr (id a)); ("type", JStr (kind_str (type a)));
         ("url", d_optional JStr (url a));
         ("text", d_optional JStr (text a));
         ("dimensions", d_optional (d_dict JInt) (dimensions a))].
End CreativeAsset.

Module CreativeSpec.
Inductive kind : Type := image | video | carousel.

Definition kind_str (k : kind) : string :=
  match k with
  | image => "image"
  | video => "video"
  | carousel => "carousel"
  end.

Definition kinds : list (string * kind) :=
  map (fun k => (kind_str k, k)) [image; video; carousel].

Record t : Type := mk {
  id : string;
  name : string;
  type : kind;
  assets : list CreativeAsset.t
}.

Section Validate.
Context `{Runtime}.

Definition validate (d : dict) : validation t :=
  (mk <$> required d "id" v_str
      <*> required d "name" v_str
      <*> required d "type" (v_literal kinds)
      <*> required d "assets" (v_list (v_model CreativeAsset.validate))
  )%validation.
End Validate.

Definition model_dump (a : t) : json :=
  JDict [("id", JStr (id a)); ("name", JStr (name a));
         ("type", JStr (kind_str (type a)));
         ("assets", d_list CreativeAsset.model_dump (assets a))].
End CreativeSpec.

Module Campaign.
Inductive status_t : Type := ACTIVE | PAUSED | ARCHIVED | DRAFT.

Definition status_str (s : status_t) : string :=
  match s with
  | ACTIVE => "ACTIVE"
  | PAUSED => "PAUSED"
  | ARCHIVED => "ARCHIVED"
  | DRAFT => "DRAFT"
  end.

Definition statuses : list (string * status_t) :=
  map (fun s => (status_str s, s)) [ACTIVE; PAUSED; ARCHIVED; DRAFT].

Inductive budget_type_t : Type := DAILY | LIFETIME.

Definition budget_type_str (b : budget_type_t) : string :=
  match b with
  | DAILY => "DAILY"
  | LIFETIME => "LIFETIME"
  end.

Definition budget_types : list (string * budget_type_t) :=
  map (fun b => (budget_type_str b, b)) [DAILY; LIFETIME].

Record t : Type := mk {
  id : string;
  name : string;
  status : status_t;
  objective : string;
  budget_type : budget_type_t;
  daily_budget : option float;
  lifetime_budget : option float;
  start_time : string;
  end_time : option string;
  created_at : string;
  updated_at : string;
  targeting : option CampaignTargeting.t;
  creative_specs : option (list CreativeSpec.t)
}.

Section Validate.
Context `{Runtime}.

Definition validate (d : dict) : validation t :=
  (mk <$> required d "id" v_str
      <*> required d "name" v_str
      <*> required d "status" (v_literal statuses)
      <*> required d "objective" v_str
      <*> required d "budget_type" (v_literal budget_types)
      <*> with_default d "daily_budget" (v_optional v_float) None
      <*> with_default d "lifetime_budget" (v_optional v_float) None
      <*> required d "start_time" v_str
      <*> with_default d "end_time" (v_optional v_str) None
      <*> required d "created_at" v_str
      <*> required d "updated_at" v_str
      <*> with_default d "targeting"
            (v_optional (v_model CampaignTargeting.validate)) None
      <*> with_default d "creative_specs"
            (v_optional (v_list (v_model CreativeSpec.validate))) None
  )%validation.
End Validate.

Definition model_dump (a : t) : json :=
  JDict [("id", JStr (id a)); ("name", JStr (name a));
         ("status", JStr (status_str (status a)));
         ("objective", JStr (objective a));
         ("budget_type", JStr (budget_type_str (budget_type a)));
         ("daily_budget", d_optional JFloat (daily_budget a));
         ("lifetime_budget", d_optional JFloat (lifetime_budget a));
         ("start_time", JStr (start_time a));
         ("end_time", d_optional JStr (end_time a));
         ("created_at", JStr (created_at a));
         ("updated_at", JStr (updated_at a));
         ("targeting",
          d_optional CampaignTargeting.model_dump (targeting a));
         ("creative_specs",
          d_optional (d_list CreativeSpec.model_dump) (creative_specs a))].
End Campaign.

Module CampaignStatsBreakdown.
Record t : Type := mk {
  date : string;
  impressions : Z;
  clicks : Z;
  spend : float;
  conversions : Z
}.

Section Validate.
Context `{Runtime}.

Definition validate (d : dict) : validation t :=
  (mk <$> required d "date" v_str
      <*> required d "impressions" v_int
      <*> required d "clicks" v_int
      <*> required d "spend" v_float
      <*> required d "conversions" v_int)%validation.
End Validate.

Definition model_dump (a : t) : json :=
  JDict [("date", JStr (date a)); ("impressions", JInt (impressions a));
         ("clicks", JInt (clicks a)); ("spend", JFloat (spend a));
         ("conversions", JInt (conversions a))].
End CampaignStatsBreakdown.

Module CampaignStats.
Record t : Type := mk {
  campaign_id : string;
  impressions : Z;
  clicks : Z;
  spend : float;
  conversions : Z;
  ctr : float;
  cpm : float;
  cpc : float;
  conversion_rate : float;
  date_range : list (string * string);
  breakdown : option (list CampaignStatsBreakdown.t)
}.

Section Validate.
Context `{Runtime}.

Definition validate (d : dict) : validation t :=
  (mk <$> required d "campaign_id" v_str
      <*> required d "impressions" v_int
      <*> required d "clicks" v_int
      <*> required d "spend" v_float
      <*> required d "conversions" v_int
      <*> required d "ctr" v_float
      <*> required d "cpm" v_float
      <*> required d "cpc" v_float
      <*> required d "conversion_rate" v_float
      <*> required d "date_range" (v_dict v_str)
      <*> with_default d "breakdown"
            (v_optional (v_list (v_model CampaignStatsBreakdown.validate)))
            None)%validation.
End Validate.

Definition model_dump (a : t) : json :=
  JDict [("campaign_id", JStr (campaign_id a));
         ("impressions", JInt (impressions a));
         ("clicks", JInt (clicks a)); ("spend", JFloat (spend a));
         ("conversions", JInt (conversions a)); ("ctr", JFloat (ctr a));
         ("cpm", JFloat (cpm a)); ("cpc", JFloat (cpc a));
         ("conversion_rate", JFloat (conversion_rate a));
         ("date_range", d_dict JStr (date_range a));
         ("breakdown",
          d_optional (d_list CampaignStatsBreakdown.model_dump)
            (breakdown a))].
End CampaignStats.

(** The status filter of a campaign listing: [DRAFT] is not among its
    values. *)
Module StatusFilter.
Inductive t : Type := ACTIVE | PAUSED | ARCHIVED.

Definition to_str (s : t) : string :=
  match s with
  | ACTIVE => "ACTIVE"
  | PAUSED => "PAUSED"
  | ARCHIVED => "ARCHIVED"
  end.

Definition values : list (string * t) :=
  map (fun s => (to_str s, s)) [ACTIVE; PAUSED; ARCHIVED].
End StatusFilter.

Module GetCampaignsOptions.
Inductive sort_by_t : Type := by_created_at | by_updated_at | by_name | by_spend.

Definition sort_by_str (s : sort_by_t) : string :=
  match s with
  | by_created_at => "created_at"
  | by_updated_at => "updated_at"
  | by_name => "name"
  | by_spend => "spend"
  end.

Definition sort_bys : list (string * sort_by_t) :=
  map (fun s => (sort_by_str s, s))
    [by_created_at; by_updated_at; by_name; by_spend].

Inductive sort_order_t : Type := asc | desc.

Definition sort_order_str (s : sort_order_t) : string :=
  match s with
  | asc => "asc"
  | desc => "desc"
  end.

Definition sort_orders : list (string * sort_order_t) :=
  map (fun s => (sort_order_str s, s)) [asc; desc].

Record t : Type := mk {
  limit : option Z;
  offset : option Z;
  status : option StatusFilter.t;
  objective : option string;
  sort_by : option sort_by_t;
  sort_order : option sort_order_t
}.

Section Validate.
Context `{Runtime}.

Definition validate (d : dict) : validation t :=
  (mk <$> with_default d "limit" (v_optional v_int) (Some 50%Z)
      <*> with_default d "offset" (v_optional v_int) (Some 0%Z)
      <*> with_default d "status"
            (v_optional (v_literal StatusFilter.values)) None
      <*> with_default d "objective" (v_optional v_str) None
      <*> with_default d "sort_by" (v_optional (v_literal sort_bys)) None
      <*> with_default d "sort_order"
            (v_optional (v_literal sort_orders)) None)%validation.
End Validate.

(** [GetCampaignsOptions()]: every field at its default. *)
Definition default : t := mk (Some 50%Z) (Some 0%Z) None None None None.
End GetCampaignsOptions.

Module GetCampaignsArgs.
Record t : Type := mk {
  ad_account_id : string;
  limit : option Z;
  offset : option Z;
  status : option StatusFilter.t
}.

Definition fields : list string :=
  ["ad_account_id"; "limit"; "offset"; "status"].

Section Validate.
Context `{Runtime}.

Definition validate (d : dict) : validation t :=
  (mk <$> required d "ad_account_id" v_str
      <*> with_default d "limit" (v_optional v_int) (Some 50%Z)
      <*> with_default d "offset" (v_optional v_int) (Some 0%Z)
      <*> with_default d "status"
            (v_optional (v_literal StatusFilter.values)) None)%validation.

Definition schema : list field_schema :=
  [Field "ad_account_id" true (accepts v_str);
   Field "limit" false (accepts (v_optional v_int));
   Field "offset" false (accepts (v_optional v_int));
   Field "status" false
     (accepts (v_optional (v_literal StatusFilter.values)))].
End Validate.
End GetCampaignsArgs.

Module GetCampaignDetailsArgs.
Record t : Type := mk {
  ad_account_id : string;
  campaign_id : string
}.

Definition fields : list string := ["ad_account_id"; "campaign_id"].

Definition validate (d : dict) : validation t :=
  (mk <$> required d "ad_account_id" v_str
      <*> required d "campaign_id" v_str)%validation.

Definition schema : list field_schema :=
  [Field "ad_account_id" true (accepts v_str);
   Field "campaign_id" true (accepts v_str)].
End GetCampaignDetailsArgs.

Module GetCampaignStatsArgs.
Record t : Type := mk {
  ad_account_id : string;
  campaign_ids : list string;
  start_date : string;
  end_date : string;
  metrics : option (list string)
}.

Definition fields : list string :=
  ["ad_account_id"; "campaign_ids"; "start_date"; "end_date"; "metrics"].

Definition validate (d : dict) : validation t :=
  (mk <$> required d "ad_account_id" v_str
      <*> required d "campaign_ids" (v_list v_str)
      <*> required d "start_date" v_str
      <*> required d "end_date" v_str
      <*> with_default d "metrics" (v_optional (v_list v_str)) None
  )%validation.

Definition schema : list field_schema :=
  [Field "ad_account_id" true (accepts v_str);
   Field "campaign_ids" true (accepts (v_list v_str));
   Field "start_date" true (accepts v_str);
   Field "end_date" true (accepts v_str);
   Field "metrics" false (accepts (v_optional (v_list v_str)))].
End GetCampaignStatsArgs.

(** ** The network and the effect monad *)

(** The world a call runs in.  [remote req i] is what attempt number [i]
    (counted over everything this world has been sent) ends in when it carries
    [req]; [sent] is the log of the attempts made so far, oldest first. *)
Record World : Type := {
  remote : Request.t -> nat -> Outcome;
  sent : list Request.t
}.

(** A computation that reads and extends the world and returns or raises. *)
Definition M (A : Type) : Type := World -> (exn + A) * World.

Definition ret {A : Type} (a : A) : M A := fun w => (inr a, w).

Definition raise {A : Type} (e : exn) : M A := fun w => (inl e, w).

Definition bind {A B : Type} (m : M A) (k : A -> M B) : M B :=
  fun w =>
    match m w with
    | (inr a, w') => k a w'
    | (inl e, w') => (inl e, w')
    end.

(** A pure step that may raise. *)
Definition lift {A : Type} (r : exn + A) : M A := fun w => (r, w).

(** [try: m  except ... as e: handler e].  A handler that does not match
    re-raises. *)
Definition try_except {A : Type} (m : M A) (handler : exn -> M A) : M A :=
  fun w =>
    match m w with
    | (inr a, w') => (inr a, w')
    | (inl e, w') => handler e w'
    end.

Declare Scope py_scope.
Delimit Scope py_scope with py.
Notation "x <- m ;; k" := (bind m (fun x => k))
  (at level 100, m at next level, right associativity) : py_scope.
Local Open Scope py_scope.

(** One attempt on the wire: the world answers, and the attempt is logged. *)
Definition attempt (req : Request.t) : World -> Outcome * World :=
  fun w =>
    (remote w req (List.length (sent w)),
     {| remote := remote w; sent := (sent w ++ [req])%list |}).

(** The world [w] with the attempts [reqs] logged after its own. *)
Definition logged (w : World) (reqs : list Request.t) : World :=
  {| remote := remote w; sent := (sent w ++ reqs)%list |}.

(** ** urllib3's retry policy, as the client configures it *)

Module Retry.
(** [total] is the number of retries allowed; the other counters of the
    library's class stay at [None] in this client. *)
Record t : Type := mk {
  total : nat;
  backoff_factor : Z;
  status_forcelist : list Z;
  allowed_methods : list string;
  respect_retry_after_header : bool;
  raise_on_status : bool
}.

Definition DEFAULT_ALLOWED_METHODS : list string :=
  ["HEAD"; "GET"; "PUT"; "DELETE"; "OPTIONS"; "TRACE"].

Definition RETRY_AFTER_STATUS_CODES : list Z := [413; 429; 503]%Z.

Definition mem_Z (x : Z) (l : list Z) : bool := existsb (Z.eqb x) l.

Definition is_method_retryable (r : t) (method : string) : bool :=
  existsb (String.eqb method) (allowed_methods r).

(** [Retry.is_retry], with [left] retries remaining: a status of the force
    list is always retried; a status of [RETRY_AFTER_STATUS_CODES] that
    came with a Retry-After header is retried while retries remain. *)
Definition is_retry (r : t) (left : nat) (method : string) (status : Z)
  (has_retry_after : bool) : bool :=
  if negb (is_method_retryable r method) then false
  else if mem_Z status (status_forcelist r) then true
  else negb (Nat.eqb left 0) && respect_retry_after_header r
       && has_retry_after && mem_Z status RETRY_AFTER_STATUS_CODES.
End Retry.

(** [HTTPConnectionPool.urlopen] under [HTTPAdapter.send], with [left]
    retries remaining.  A failed attempt, or a response that [is_retry]
    selects, uses up one retry ([Retry.increment]); with none left the
    library gives up with [MaxRetryError], which requests raises as
    [ConnectionError] or, for a response, [RetryError].  A failed attempt is
    retried whatever the method, which is the library's behaviour for the
    idempotent methods; the client sends "GET" only.  The pauses between
    attempts are not modelled. *)
Fixpoint urlopen (retries : Retry.t) (left : nat) (req : Request.t)
  : M Response.t :=
  fun w =>
    let (o, w1) := attempt req w in
    match o with
    | Failed err =>
        match left with
        | O => (inl (ConnectionError err), w1)
        | S left' => urlopen retries left' req w1
        end
    | Responded r =>
        if Retry.is_retry retries left (Request.method req)
             (Response.status_code r) (Response.retry_after r)
        then
          match left with
          | O => if Retry.raise_on_status retries
                 then (inl (RetryError r), w1) else (inr r, w1)
          | S left' => urlopen retries left' req w1
          end
        else (inr r, w1)
    end.

(** An attempt ends in a transient failure: no connection, or a response
    that the force list selects. *)
Definition transient (retries : Retry.t) (req : Request.t) (o : Outcome)
  : Prop :=
  match o with
  | Failed _ => True
  | Responded r =>
      Retry.is_method_retryable retries (Request.method req) = true /\
      Retry.mem_Z (Response.status_code r) (Retry.status_forcelist retries)
      = true
  end.

Module Session.
Record t : Type := mk {
  headers : list (string * string);
  max_retries : Retry.t
}.

(** [session.request(method, url, timeout=..., params=...)]: the request
    carries the session's headers and goes through the mounted adapter. *)
Definition request (s : t) (method url : string) (timeout : Z)
  (params : list (string * param_value)) : M Response.t :=
  let req := Request.mk method url params (headers s) timeout in
  urlopen (max_retries s) (Retry.total (max_retries s)) req.
End Session.

(** [response.raise_for_status()]. *)
Definition raise_for_status (r : Response.t) : M unit :=
  if Response.ok r then ret tt else raise (HTTPError r).

(** [response.json()]. *)
Definition response_json (r : Response.t) : exn + json :=
  match Response.json r with
  | Some j => inr j
  | None => inl (JSONDecodeError r)
  end.

(** [x.get(k, default)]: defined on a dict only. *)
Definition py_get (x : json) (k : string) (default : json) : exn + json :=
  match x with
  | JDict d =>
      match dict_get k d with
      | Some v => inr v
      | None => inr default
      end
  | _ => inl (AttributeError x)
  end.

(** [[T(...) for x in l]]: the first element that does not build raises. *)
Fixpoint construct_all {A : Type} (title : string)
  (validate : dict -> validation A) (l : list json) : exn + list A :=
  match l with
  | [] => inr []
  | x :: l' =>
      match construct title validate x with
      | inl e => inl e
      | inr a =>
          match construct_all title validate l' with
          | inl e => inl e
          | inr rest => inr (a :: rest)
          end
      end
  end.

(** Truth value of an [Optional[int]]. *)
Definition truthy_int (x : option Z) : bool :=
  match x with
  | Some n => negb (n =? 0)%Z
  | None => false
  end.

(** An f-string formats a string as it is and anything else by [str]. *)
Definition format_value `{Runtime} (x : json) : string :=
  match x with
  | JStr s => s
  | _ => py_str x
  end.

(** ** uber_ads_client.py *)

Module UberAdsClient.
Record t : Type := mk {
  config : UberAdsConfig.t;
  access_token : string;
  session : Session.t
}.

(** The string literal that [__init__] assigns to [self.access_token].
    The literal is a credential and is not repeated here; nothing below
    depends on its characters. *)
Definition ACCESS_TOKEN : string := "IA.<literal of __init__, elided>".

Definition retry_strategy : Retry.t :=
  {| Retry.total := 3;
     Retry.backoff_factor := 1;
     Retry.status_forcelist := [429; 500; 502; 503; 504]%Z;
     Retry.allowed_methods := Retry.DEFAULT_ALLOWED_METHODS;
     Retry.respect_retry_after_header := true;
     Retry.raise_on_status := true |}.

Section Client.
Context `{Runtime}.

(** [UberAdsClient(config)]. *)
Definition __init__ (config : UberAdsConfig.t) : t :=
  let access_token := ACCESS_TOKEN in
  {| config := config;
     access_token := access_token;
     session :=
       {| Session.headers :=
            dict_update default_headers
              [("Content-Type", "application/json");
               ("Accept", "application/json");
               ("Authorization", "Bearer " ++ access_token)];
          Session.max_retries := retry_strategy |} |}.

(** The message the [HTTPError] handler of [_make_request] computes:
    the [error.message] of the decoded error body when the response is
    truthy, and [str(e)] when the response is falsy, when the body does
    not decode, and when the body does not have that shape. *)
Definition error_message (e : exn) (response : Response.t) : string :=
  let error_data :=
    if Response.ok response then Response.json response
    else Some (JDict []) in
  match error_data with
  | Some (JDict d) =>
      match dict_get "error" d with
      | Some (JDict err) =>
          match dict_get "message" err with
          | Some m => format_value m
          | None => str e
          end
      | Some _ => str e
      | None => str e
      end
  | Some _ => str e
  | None => str e
  end.

Definition _make_request (self : t) (method endpoint : string)
  (params : list (string * param_value)) : M json :=
  let url := UberAdsConfig.base_url (config self) ++ endpoint in
  try_except
    (response <- Session.request (session self) method url 30 params ;;
     _ <- raise_for_status response ;;
     if String.eqb (Response.content response) ""
     then ret (JDict [])
     else lift (response_json response))
    (fun e =>
       match e with
       | HTTPError response =>
           let status_code :=
             if Response.ok response
             then Some (Response.status_code response) else None in
           raise (UberAdsAPIError
                    ("Uber Ads API error: " ++ error_message e response)
                    status_code)
       | _ =>
           if is_RequestException e
           then raise (UberAdsAPIError ("Request error: " ++ str e) None)
           else raise e
       end).

Definition get_ad_accounts (self : t) : M (list AdAccount.t) :=
  try_except
    (response_data <- _make_request self "GET" "/v1/ads" [] ;;
     data <- lift (py_get response_data "data" response_data) ;;
     match data with
     | JList l => lift (construct_all "AdAccount" AdAccount.validate l)
     | _ =>
         account <- lift (construct "AdAccount" AdAccount.validate data) ;;
         ret [account]
     end)
    (fun e =>
       raise (UberAdsAPIError
                ("Failed to retrieve ad accounts: " ++ str e) None)).

(** The query parameters [get_campaigns] builds from the options. *)
Definition campaigns_params (options : GetCampaignsOptions.t)
  : list (string * param_value) :=
  let params := [] in
  let params :=
    match GetCampaignsOptions.limit options with
    | Some n =>
        if truthy_int (Some n) then dict_set "limit" (PInt n) params
        else params
    | None => params
    end in
  let params :=
    match GetCampaignsOptions.offset options with
    | Some n =>
        if truthy_int (Some n) then dict_set "offset" (PInt n) params
        else params
    | None => params
    end in
  let params :=
    match GetCampaignsOptions.status options with
    | Some s => dict_set "status" (PStr (StatusFilter.to_str s)) params
    | None => params
    end in
  let params :=
    match GetCampaignsOptions.sort_by options with
    | Some s =>
        dict_set "sort_by" (PStr (GetCampaignsOptions.sort_by_str s))
          params
    | None => params
    end in
  let params :=
    match GetCampaignsOptions.sort_order options with
    | Some s =>
        dict_set "sort_order"
          (PStr (GetCampaignsOptions.sort_order_str s)) params
    | None => params
    end in
  params.

Definition get_campaigns (self : t) (ad_account_id : string)
  (options : option GetCampaignsOptions.t) : M (list Campaign.t) :=
  let options :=
    match options with
    | None => GetCampaignsOptions.default
    | Some o => o
    end in
  let params := campaigns_params options in
  try_except
    (response_data <-
       _make_request self "GET"
         ("/v1/ads/" ++ ad_account_id ++ "/campaigns") params ;;
     data <- lift (py_get response_data "data" response_data) ;;
     match data with
     | JList l => lift (construct_all "Campaign" Campaign.validate l)
     | _ =>
         campaign <- lift (construct "Campaign" Campaign.validate data) ;;
         ret [campaign]
     end)
    (fun e =>
       raise (UberAdsAPIError
                ("Failed to retrieve campaigns: " ++ str e) None)).

Definition get_campaign_details (self : t)
  (ad_account_id campaign_id : string) : M Campaign.t :=
  try_except
    (response_data <-
       _make_request self "GET"
         ("/v1/ads/" ++ ad_account_id ++ "/campaigns/" ++ campaign_id)
         [] ;;
     data <- lift (py_get response_data "data" response_data) ;;
     lift (construct "Campaign" Campaign.validate data))
    (fun e =>
       raise (UberAdsAPIError
                ("Failed to retrieve campaign details: " ++ str e) None)).

(** [params.setdefault(k, []).append(x)]. *)
Definition setdefault_append (k x : string)
  (params : list (string * param_value)) : list (string * param_value) :=
  match dict_get k params with
  | Some (PList l) => dict_set k (PList (l ++ [x])%list) params
  | Some _ => params
  | None => dict_set k (PList [x]) params
  end.

(** The query parameters [get_campaign_stats] builds. *)
Definition stats_params (campaign_ids : list string)
  (start_date end_date : string) (metrics : option (list string))
  : list (string * param_value) :=
  let params :=
    [("start_date", PStr start_date); ("end_date", PStr end_date)] in
  let params :=
    fold_left (fun p campaign_id =>
                 setdefault_append "campaign_ids" campaign_id p)
      campaign_ids params in
  let params :=
    match metrics with
    | Some (m :: ms) =>
        fold_left (fun p metric => setdefault_append "metrics" metric p)
          (m :: ms) params
    | _ => params
    end in
  params.

Definition get_campaign_stats (self : t) (ad_account_id : string)
  (campaign_ids : list string) (start_date end_date : string)
  (metrics : option (list string)) : M (list CampaignStats.t) :=
  let params := stats_params campaign_ids start_date end_date metrics in
  try_except
    (response_data <-
       _make_request self "GET"
         ("/v1/ads/" ++ ad_account_id ++ "/reports/campaigns") params ;;
     data <- lift (py_get response_data "data" response_data) ;;
     match data with
     | JList l =>
         lift (construct_all "CampaignStats" CampaignStats.validate l)
     | _ =>
         stats <-
           lift (construct "CampaignStats" CampaignStats.validate data) ;;
         ret [stats]
     end)
    (fun e =>
       raise (UberAdsAPIError
                ("Failed to retrieve campaign stats: " ++ str e) None)).

(** [get_campaigns_by_status]: the options are built from the status before
    [get_campaigns] is entered, outside its [try]. *)
Definition get_campaigns_by_status (self : t) (ad_account_id status : string)
  : M (list Campaign.t) :=
  options <-
    lift (construct "GetCampaignsOptions" GetCampaignsOptions.validate
            (JDict [("status", JStr status)])) ;;
  get_campaigns self ad_account_id (Some options).

Definition get_active_campaigns (self : t) (ad_account_id : string)
  : M (list Campaign.t) :=
  get_campaigns_by_status self ad_account_id "ACTIVE".

Definition get_paused_campaigns (self : t) (ad_account_id : string)
  : M (list Campaign.t) :=
  get_campaigns_by_status self ad_account_id "PAUSED".

Definition get_archived_campaigns (self : t) (ad_account_id : string)
  : M (list Campaign.t) :=
  get_campaigns_by_status self ad_account_id "ARCHIVED".
End Client.
End UberAdsClient.

(** ** server.py *)

Module TextContent.
Record t : Type := mk {
  type : string;
  text : string
}.
End TextContent.

(** The envelope every tool call returns; [isError] defaults to false. *)
Module CallToolResult.
Record t : Type := mk {
  content : list TextContent.t;
  isError : bool
}.

Definition success (text : string) : t :=
  mk [TextContent.mk "text" text] false.

Definition error (text : string) : t :=
  mk [TextContent.mk "text" text] true.
End CallToolResult.

Module UberAdsMCPServer.
Record t : Type := mk {
  config : UberAdsConfig.t;
  client : UberAdsClient.t
}.

(** [os.getenv(k, default)] over the process environment [env]. *)
Definition getenv (env : string -> option string) (k default : string)
  : string :=
  match env k with
  | Some v => v
  | None => default
  end.

Definition _load_config (env : string -> option string) : UberAdsConfig.t :=
  {| UberAdsConfig.client_id := env "UBER_CLIENT_ID";
     UberAdsConfig.client_secret := env "UBER_CLIENT_SECRET";
     UberAdsConfig.base_url :=
       getenv env "UBER_BASE_URL" "https://api.uber.com" |}.

Section Server.
Context `{Runtime}.

Definition __init__ (env : string -> option string) : t :=
  let config := _load_config env in
  {| config := config; client := UberAdsClient.__init__ config |}.

Definition handle_get_ad_accounts (self : t) : M CallToolResult.t :=
  try_except
    (ad_accounts <- UberAdsClient.get_ad_accounts (client self) ;;
     let result_data := map AdAccount.model_dump ad_accounts in
     ret (CallToolResult.success (json_dumps (JList result_data))))
    (fun e =>
       match e with
       | UberAdsAPIError message _ =>
           ret (CallToolResult.error
                  ("Error retrieving ad accounts: " ++ message))
       | _ => ret (CallToolResult.error ("Unexpected error: " ++ str e))
       end).

(** [GetCampaignsOptions(limit=..., offset=..., status=...)] on the
    validated arguments. *)
Definition options_of_args (args : GetCampaignsArgs.t)
  : exn + GetCampaignsOptions.t :=
  construct "GetCampaignsOptions" GetCampaignsOptions.validate
    (JDict [("limit", d_optional JInt (GetCampaignsArgs.limit args));
            ("offset", d_optional JInt (GetCampaignsArgs.offset args));
            ("status",
             d_optional (fun s => JStr (StatusFilter.to_str s))
               (GetCampaignsArgs.status args))]).

Definition handle_get_campaigns (self : t) (arguments : dict)
  : M CallToolResult.t :=
  try_except
    (args <-
       lift (construct "GetCampaignsArgs" GetCampaignsArgs.validate
               (JDict arguments)) ;;
     options <- lift (options_of_args args) ;;
     campaigns <-
       UberAdsClient.get_campaigns (client self)
         (GetCampaignsArgs.ad_account_id args) (Some options) ;;
     let result_data := map Campaign.model_dump campaigns in
     ret (CallToolResult.success (json_dumps (JList result_data))))
    (fun e =>
       match e with
       | ValidationError _ _ _ =>
           ret (CallToolResult.error ("Invalid arguments: " ++ str e))
       | UberAdsAPIError message _ =>
           ret (CallToolResult.error
                  ("Error retrieving campaigns: " ++ message))
       | _ => ret (CallToolResult.error ("Unexpected error: " ++ str e))
       end).

Definition handle_get_campaign_details (self : t) (arguments : dict)
  : M CallToolResult.t :=
  try_except
    (args <-
       lift (construct "GetCampaignDetailsArgs"
               GetCampaignDetailsArgs.validate (JDict arguments)) ;;
     campaign <-
       UberAdsClient.get_campaign_details (client self)
         (GetCampaignDetailsArgs.ad_account_id args)
         (GetCampaignDetailsArgs.campaign_id args) ;;
     let result_data := Campaign.model_dump campaign in
     ret (CallToolResult.success (json_dumps result_data)))
    (fun e =>
       match e with
       | ValidationError _ _ _ =>
           ret (CallToolResult.error ("Invalid arguments: " ++ str e))
       | UberAdsAPIError message _ =>
           ret (CallToolResult.error
                  ("Error retrieving campaign details: " ++ message))
       | _ => ret (CallToolResult.error ("Unexpected error: " ++ str e))
       end).

Definition handle_get_campaign_stats (self : t) (arguments : dict)
  : M CallToolResult.t :=
  try_except
    (args <-
       lift (construct "GetCampaignStatsArgs"
               GetCampaignStatsArgs.validate (JDict arguments)) ;;
     stats <-
       UberAdsClient.get_campaign_stats (client self)
         (GetCampaignStatsArgs.ad_account_id args)
         (GetCampaignStatsArgs.campaign_ids args)
         (GetCampaignStatsArgs.start_date args)
         (GetCampaignStatsArgs.end_date args)
         (GetCampaignStatsArgs.metrics args) ;;
     let result_data := map CampaignStats.model_dump stats in
     ret (CallToolResult.success (json_dumps (JList result_data))))
    (fun e =>
       match e with
       | ValidationError _ _ _ =>
           ret (CallToolResult.error ("Invalid arguments: " ++ str e))
       | UberAdsAPIError message _ =>
           ret (CallToolResult.error
                  ("Error retrieving campaign stats: " ++ message))
       | _ => ret (CallToolResult.error ("Unexpected error: " ++ str e))
       end).
End Server.
End UberAdsMCPServer.

Module Tool.
Record t : Type := mk {
  name : string;
  description : string;
  inputSchema : json
}.
End Tool.

(** A property of an input schema: a type and a description. *)
Definition described (type description : string) : json :=
  JDict [("type", JStr type); ("description", JStr description)].

(** [list_tools()]: the catalog of the four tools. *)
Definition list_tools : list Tool.t :=
  [Tool.mk "get_ad_accounts"
     "Retrieve all ad accounts for the authenticated user"
     (JDict [("type", JStr "object"); ("properties", JDict [])]);
   Tool.mk "get_campaigns"
     "Retrieve campaigns for a specific ad account"
     (JDict
        [("type", JStr "object");
         ("properties",
          JDict
            [("ad_account_id",
              described "string"
                "The ID of the ad account to retrieve campaigns for");
             ("limit",
              JDict
                [("type", JStr "integer");
                 ("description",
                  JStr "Maximum number of campaigns to retrieve (default: 50)");
                 ("default", JInt 50)]);
             ("offset",
              JDict
                [("type", JStr "integer");
                 ("description",
                  JStr "Number of campaigns to skip (default: 0)");
                 ("default", JInt 0)]);
             ("status",
              JDict
                [("type", JStr "string");
                 ("enum",
                  JList [JStr "ACTIVE"; JStr "PAUSED"; JStr "ARCHIVED"]);
                 ("description", JStr "Filter campaigns by status")])]);
         ("required", JList [JStr "ad_account_id"])]);
   Tool.mk "get_campaign_details"
     "Get detailed information about a specific campaign"
     (JDict
        [("type", JStr "object");
         ("properties",
          JDict
            [("ad_account_id", described "string" "The ID of the ad account");
             ("campaign_id",
              described "string"
                "The ID of the campaign to retrieve details for")]);
         ("required", JList [JStr "ad_account_id"; JStr "campaign_id"])]);
   Tool.mk "get_campaign_stats"
     "Retrieve performance statistics for campaigns"
     (JDict
        [("type", JStr "object");
         ("properties",
          JDict
            [("ad_account_id", described "string" "The ID of the ad account");
             ("campaign_ids",
              JDict
                [("type", JStr "array");
                 ("items", JDict [("type", JStr "string")]);
                 ("description",
                  JStr "Array of campaign IDs to get stats for")]);
             ("start_date",
              described "string" "Start date for stats in YYYY-MM-DD format");
             ("end_date",
              described "string" "End date for stats in YYYY-MM-DD format");
             ("metrics",
              JDict
                [("type", JStr "array");
                 ("items",
                  JDict
                    [("type", JStr "string");
                     ("enum",
                      JList
                        [JStr "impressions"; JStr "clicks"; JStr "spend";
                         JStr "conversions"; JStr "ctr"; JStr "cpm"])]);
                 ("description", JStr "Metrics to retrieve")])]);
         ("required",
          JList
            [JStr "ad_account_id"; JStr "campaign_ids"; JStr "start_date";
             JStr "end_date"])])].

Section Dispatcher.
Context `{Runtime}.

(** [call_tool(name, arguments)] of the module's [server_instance]. *)
Definition call_tool (server_instance : UberAdsMCPServer.t) (name : string)
  (arguments : dict) : M CallToolResult.t :=
  try_except
    (if String.eqb name "get_ad_accounts" then
       UberAdsMCPServer.handle_get_ad_accounts server_instance
     else if String.eqb name "get_campaigns" then
       UberAdsMCPServer.handle_get_campaigns server_instance arguments
     else if String.eqb name "get_campaign_details" then
       UberAdsMCPServer.handle_get_campaign_details server_instance
         arguments
     else if String.eqb name "get_campaign_stats" then
       UberAdsMCPServer.handle_get_campaign_stats server_instance arguments
     else
       ret (CallToolResult.error ("Unknown tool: " ++ name)))
    (fun e =>
       ret (CallToolResult.error ("Tool execution failed: " ++ str e))).
End Dispatcher.

(** ** Vocabulary of the statements *)

(** The request [_make_request] sends for a method, an endpoint and query
    parameters: the URL is the base URL followed by the endpoint, the headers
    are the session's, the timeout is 30 seconds. *)
Definition request_of (self : UberAdsClient.t) (method endpoint : string)
  (params : list (string * param_value)) : Request.t :=
  Request.mk method
    (UberAdsConfig.base_url (UberAdsClient.config self) ++ endpoint)
    params (Session.headers (UberAdsClient.session self)) 30.

(** What the three list-returning operations do with the decoded body:
    unwrap [data] when the body has that key, then build one entity per
    element of a list, or a single entity from anything else. *)
Definition entities {A : Type} (title : string)
  (validate : dict -> validation A) (response_data : json) : exn + list A :=
  match py_get response_data "data" response_data with
  | inl e => inl e
  | inr (JList l) => construct_all title validate l
  | inr data =>
      match construct title validate data with
      | inl e => inl e
      | inr a => inr [a]
      end
  end.

(** What [get_campaign_details] does with the decoded body. *)
Definition entity {A : Type} (title : string)
  (validate : dict -> validation A) (response_data : json) : exn + A :=
  match py_get response_data "data" response_data with
  | inl e => inl e
  | inr data => construct title validate data
  end.

(** The [except Exception] clause of a public operation: whatever was raised
    is raised again as an [UberAdsAPIError] under the operation's label, and
    without a status code. *)
Definition relabel `{Runtime} {A : Type} (label : string) (r : exn + A)
  : exn + A :=
  match r with
  | inl e => inl (UberAdsAPIError (label ++ str e) None)
  | inr a => inr a
  end.

Definition and_then {A B : Type} (r : exn + A) (f : A -> exn + B) : exn + B :=
  match r with
  | inl e => inl e
  | inr a => f a
  end.

(** What [_make_request] returns for a response of one attempt that is not
    an error status: the empty object for an empty body, the decoded body,
    or a request error when the body does not decode. *)
Definition decoded `{Runtime} (r : Response.t) : exn + json :=
  if String.eqb (Response.content r) "" then inr (JDict [])
  else
    match Response.json r with
    | Some j => inr j
    | None =>
        inl (UberAdsAPIError ("Request error: " ++ str (JSONDecodeError r))
               None)
    end.

(** The number of attempts a computation makes from a world. *)
Definition attempts {A : Type} (m : M A) (w : World) : nat :=
  List.length (sent (snd (m w))) - List.length (sent w).

(** The five statuses the client retries. *)
Definition TRANSIENT : list Z := [429; 500; 502; 503; 504]%Z.

(** From this world on, every attempt fails transiently: the connection
    fails, or the response has one of the five statuses. *)
Definition always_transient (w : World) : Prop :=
  forall req i, (List.length (sent w) <= i)%nat ->
    match remote w req i with
    | Failed _ => True
    | Responded r => In (Response.status_code r) TRANSIENT
    end.

(** The next attempt of this world is answered with [r]. *)
Definition next_response (w : World) (r : Response.t) : Prop :=
  forall req, remote w req (List.length (sent w)) = Responded r.

(** The computation raises an [UberAdsAPIError]. *)
Definition raises_api_error {A : Type} (m : M A) (w : World) : Prop :=
  exists message status, fst (m w) = inl (UberAdsAPIError message status).


(** The envelope a handler makes of a client operation's outcome: the
    serialised payload, or an error envelope whose text is the handler's
    prefix, the operation's label and the text of what went wrong. *)
Definition reported `{Runtime} {A : Type} (what label : string)
  (payload : A -> json) (r : exn + A) : CallToolResult.t :=
  match r with
  | inr a => CallToolResult.success (json_dumps (payload a))
  | inl e => CallToolResult.error (what ++ label ++ str e)
  end.

(** The envelope of a failed argument validation. *)
Definition invalid_arguments `{Runtime} (title : string) (e : line_error)
  (es : list line_error) : CallToolResult.t :=
  CallToolResult.error
    ("Invalid arguments: " ++ str (ValidationError title e es)).

(** The options a campaign listing is called with by its handler. *)
Definition listing_options (args : GetCampaignsArgs.t) : GetCampaignsOptions.t :=
  GetCampaignsOptions.mk (GetCampaignsArgs.limit args)
    (GetCampaignsArgs.offset args) (GetCampaignsArgs.status args)
    None None None.

(** The names [list_tools] advertises and [call_tool] recognises. *)
Definition TOOLS : list string :=
  ["get_ad_accounts"; "get_campaigns"; "get_campaign_details";
   "get_campaign_stats"].



(** A mapping violates a schema: a declared field is absent though it has
    no default, or holds a value its type does not accept. *)
Definition violates (schema : list field_schema) (arguments : dict) : Prop :=
  exists f, In f schema /\
    match dict_get (field_name f) arguments with
    | None => field_required f = true
    | Some x => field_accepts f x = false
    end.

(** A field of a mapping is in order: present with an accepted value, or
    absent with a default to take. *)
Definition field_ok (arguments : dict) (f : field_schema) : bool :=
  match dict_get (field_name f) arguments with
  | None => negb (field_required f)
  | Some x => field_accepts f x
  end.

(** A call with a mapping that violates the tool's schema returns an error
    envelope and makes no attempt on the network. *)
Definition rejects_violations `{Runtime} (server : UberAdsMCPServer.t)
  (name : string) (schema : list field_schema) : Prop :=
  forall (arguments : dict) (w : World),
    violates schema arguments ->
    attempts (call_tool server name arguments) w = 0%nat
    /\ exists text,
         fst (call_tool server name arguments w)
         = inr (CallToolResult.error text).

(** A key that is not a declared field makes no difference to validation. *)
Definition ignores_undeclared {A : Type} (validate : dict -> validation A)
  (fields : list string) : Prop :=
  forall (k : string) (x : json) (d : dict),
    ~ In k fields -> validate ((k, x) :: d) = validate d.

(** The requests a computation sends from a world, oldest first. *)
Definition new_requests {A : Type} (m : M A) (w : World) : list Request.t :=
  skipn (List.length (sent w)) (sent (snd (m w))).

(** The request carries the bearer token and asks for and announces JSON. *)
Definition authenticated (token : string) (req : Request.t) : Prop :=
  dict_get "Authorization" (Request.headers req) = Some ("Bearer " ++ token)
  /\ dict_get "Accept" (Request.headers req) = Some "application/json"
  /\ dict_get "Content-Type" (Request.headers req) = Some "application/json".

(** Every request the computation sends is authenticated with the token. *)
Definition sends_authenticated {A : Type} (token : string) (m : M A) : Prop :=
  forall w, Forall (authenticated token) (new_requests m w).

(** A list-returning operation normalises the two shapes of a successful
    response whose body is an object: a list under [data] gives one entity
    per element, in order; an object under [data], or the body itself when it
    has no [data], gives the one entity it builds. *)
Definition normalizes `{Runtime} {A : Type} (title : string)
  (validate : dict -> validation A) (m : M (list A)) : Prop :=
  forall (w : World) (r : Response.t) (d : dict),
    next_response w r ->
    Response.ok r = true ->
    decoded r = inr (JDict d) ->
    (forall l entities_built,
       dict_get "data" d = Some (JList l) ->
       Forall2 (fun x a => construct title validate x = inr a)
         l entities_built ->
       fst (m w) = inr entities_built)
    /\ (forall o a,
          dict_get "data" d = Some (JDict o) ->
          validate o = Valid a ->
          fst (m w) = inr [a])
    /\ (forall a,
          dict_get "data" d = None ->
          validate d = Valid a ->
          fst (m w) = inr [a]).

(** A client operation and the dispatcher's call of it keep failures of the
    response apart from failures of the arguments: whatever the operation
    raises is an [UberAdsAPIError] under the operation's label; the envelope
    of the call is the payload or the handler's prefix before that; and when
    a successful response decodes to a body that the operation cannot turn
    into its entities, because of [e], the operation raises the labelled text
    of [e] and the call reports it. *)
Definition shields `{Runtime} {A : Type} (what label : string)
  (pure : json -> exn + A) (payload : A -> json) (operation : M A)
  (call : M CallToolResult.t) : Prop :=
  (forall w,
     match fst (operation w) with
     | inr _ => True
     | inl e => exists text, e = UberAdsAPIError (label ++ text) None
     end)
  /\ (forall w, exists r, fst (call w) = inr (reported what label payload r))
  /\ (forall w resp body e,
        next_response w resp ->
        Response.ok resp = true ->
        decoded resp = inr body ->
        pure body = inl e ->
        fst (operation w) = inl (UberAdsAPIError (label ++ str e) None)
        /\ fst (call w)
           = inr (CallToolResult.error (what ++ label ++ str e))).

(** A call delivers: when the next attempt is answered by a successful
    response whose decoded body the operation turns into [a], the call makes
    that one attempt, with [request], and returns the success envelope of
    the serialised payload of [a]. *)
Definition delivers `{Runtime} {A : Type} (pure : json -> exn + A)
  (payload : A -> json) (request : Request.t) (call : M CallToolResult.t)
  : Prop :=
  forall w resp body a,
    next_response w resp ->
    Response.ok resp = true ->
    decoded resp = inr body ->
    pure body = inr a ->
    call w
    = (inr (CallToolResult.success (json_dumps (payload a))),
       logged w [request]).

(** A call gives up: when every attempt fails transiently, the call makes
    four attempts with [request] and returns the error envelope whose text
    is the handler's prefix, the operation's label, "Request error: " and
    the text of what requests raised. *)
Definition gives_up `{Runtime} (what label : string) (request : Request.t)
  (call : M CallToolResult.t) : Prop :=
  forall w,
    always_transient w ->
    exists e,
      call w
      = (inr (CallToolResult.error
                (what ++ label ++ "Request error: " ++ str e)),
         logged w (repeat request 4)).




(** A list-returning operation returns all the entities of a list under
    [data] or none: it returns a list exactly when every element builds, the
    list of what the elements build, in order; and when some element does
    not build, it raises. *)
Definition all_or_nothing `{Runtime} {A : Type} (title : string)
  (validate : dict -> validation A) (m : M (list A)) : Prop :=
  forall (w : World) (r : Response.t) (d : dict) (l : list json),
    next_response w r ->
    Response.ok r = true ->
    decoded r = inr (JDict d) ->
    dict_get "data" d = Some (JList l) ->
    (forall built,
       fst (m w) = inr built
       <-> Forall2 (fun x a => construct title validate x = inr a) l built)
    /\ ((exists x, In x l /\ forall a, construct title validate x <> inr a) ->
        raises_api_error m w).

(** The strings of a JSON list. *)
Fixpoint strings_of (l : list json) : list string :=
  match l with
  | [] => []
  | JStr s :: l' => s :: strings_of l'
  | _ :: l' => strings_of l'
  end.

(** The names under [properties] of a tool's input schema. *)
Definition schema_properties (tool : Tool.t) : list string :=
  match Tool.inputSchema tool with
  | JDict d =>
      match dict_get "properties" d with
      | Some (JDict properties) => keys properties
      | _ => []
      end
  | _ => []
  end.

(** The names under [required] of a tool's input schema; none when the
    schema has no such key. *)
Definition schema_required (tool : Tool.t) : list string :=
  match Tool.inputSchema tool with
  | JDict d =>
      match dict_get "required" d with
      | Some (JList names) => strings_of names
      | _ => []
      end
  | _ => []
  end.

(** The fields of a model that have no default. *)
Definition required_of (schema : list field_schema) : list string :=
  map field_name (filter field_required schema).

(** Validation reads nothing of a mapping but the given fields: two
    mappings that agree on them validate alike. *)
Definition reads_only {A : Type} (fields : list string)
  (validate : dict -> validation A) : Prop :=
  forall d d' : dict,
    (forall k, In k fields -> dict_get k d = dict_get k d') ->
    validate d = validate d'.

(** ** Concrete runs *)

(** A runtime, worlds and inputs on which the model is run.  The runtime
    coerces no numeric string and renders each library exception by a fixed
    text; the runs below never reach a coercion. *)
Module Sample.
Definition runtime : Runtime := {|
  str_as_int := fun _ => None;
  str_as_float := fun _ => None;
  int_as_float := fun _ => None;
  float_as_int := fun _ => None;
  exc_str := fun e =>
    match e with
    | ValidationError title _ _ => "validation error for " ++ title
    | TypeError _ => "argument after ** must be a mapping"
    | AttributeError _ => "object has no attribute 'get'"
    | HTTPError _ => "error status"
    | JSONDecodeError _ => "body is not JSON"
    | ConnectionError err => err
    | RetryError _ => "too many error responses"
    | UberAdsAPIError message _ => message
    end;
  py_str := fun _ => "<value>";
  json_dumps := fun _ => "<json>";
  default_headers :=
    [("User-Agent", "python-requests"); ("Accept-Encoding", "gzip, deflate");
     ("Accept", "*/*"); ("Connection", "keep-alive")]
|}.

(** The process environment with no variable set, and one that sets every
    variable the server reads, and a token besides. *)
Definition no_env : string -> option string := fun _ => None.


#[local] Existing Instance runtime.

Definition server : UberAdsMCPServer.t := UberAdsMCPServer.__init__ no_env.

Definition client : UberAdsClient.t := UberAdsMCPServer.client server.

Definition respond (status : Z) (reason : string) (body : option json)
  : Response.t :=
  {| Response.status_code := status;
     Response.reason := reason;
     Response.content := "<body>";
     Response.json_body := body;
     Response.retry_after := false |}.

(** A remote that gives every attempt the same response. *)
Definition always (r : Response.t) : World :=
  {| remote := fun _ _ => Responded r; sent := [] |}.

(** A remote that is never reached. *)
Definition unreachable : World :=
  {| remote := fun _ _ => Failed "connection refused"; sent := [] |}.

Definition account_json : json :=
  JDict [("id", JStr "acct-1"); ("name", JStr "Main");
         ("currency", JStr "USD"); ("timezone", JStr "UTC");
         ("status", JStr "ACTIVE"); ("created_at", JStr "2024-01-01");
         ("updated_at", JStr "2024-01-02")].

Definition account : AdAccount.t :=
  AdAccount.mk "acct-1" "Main" "USD" "UTC" "ACTIVE" "2024-01-01"
    "2024-01-02".

Definition campaign_json : json :=
  JDict [("id", JStr "c1"); ("name", JStr "Camp A");
         ("status", JStr "ACTIVE"); ("objective", JStr "REACH");
         ("budget_type", JStr "DAILY"); ("daily_budget", JFloat 100.5);
         ("start_time", JStr "2024-01-01"); ("created_at", JStr "2024-01-01");
         ("updated_at", JStr "2024-01-02")].

Definition campaign : Campaign.t :=
  Campaign.mk "c1" "Camp A" Campaign.ACTIVE "REACH" Campaign.DAILY
    (Some 100.5%float) None "2024-01-01" None "2024-01-01" "2024-01-02"
    None None.

Definition error_body : json :=
  JDict [("error", JDict [("message", JStr "Campaign not found")])].

(** A successful response without a body. *)
Definition empty_response : Response.t :=
  {| Response.status_code := 200;
     Response.reason := "OK";
     Response.content := "";
     Response.json_body := None;
     Response.retry_after := false |}.


(** A campaign whose status is not one of the four. *)
Definition odd_campaign_json : json :=
  JDict [("id", JStr "c2"); ("name", JStr "Camp B");
         ("status", JStr "COMPLETED"); ("objective", JStr "REACH");
         ("budget_type", JStr "DAILY"); ("start_time", JStr "2024-01-01");
         ("created_at", JStr "2024-01-01");
         ("updated_at", JStr "2024-01-02")].

(** What validating the empty object as an ad account raises. *)
Definition no_account_fields : exn :=
  ValidationError "AdAccount" (LineError [LKey "id"] missing)
    (map (fun k => LineError [LKey k] missing)
       ["name"; "currency"; "timezone"; "status"; "created_at";
        "updated_at"]).
End Sample.

(** * Facts *)

(** ** Dicts *)

Lemma dict_get_set_same (A : Type) (k : string) (v : A) (d : list (string * A)) :
  dict_get k (dict_set k v d) = Some v.
Proof.
  induction d as [|[k' v'] d IH]; simpl.
  - now rewrite String.eqb_refl.
  - destruct (String.eqb k' k) eqn:E; simpl.
    + now rewrite String.eqb_refl.
    + now rewrite E.
Qed.

Lemma dict_get_set_other (A : Type) (k k0 : string) (v : A)
  (d : list (string * A)) :
  String.eqb k k0 = false -> dict_get k0 (dict_set k v d) = dict_get k0 d.
Proof.
  intros Hk. induction d as [|[k' v'] d IH]; simpl.
  - now rewrite Hk.
  - destruct (String.eqb k' k) eqn:E; simpl.
    + apply String.eqb_eq in E. subst k'. now rewrite Hk.
    + now rewrite IH.
Qed.

(** ** The world after a computation *)

Lemma logged_logged (w : World) (l1 l2 : list Request.t) :
  logged (logged w l1) l2 = logged w (l1 ++ l2)%list.
Proof. unfold logged. simpl. now rewrite app_assoc. Qed.

(** [urlopen] makes at least one attempt and at most one more than the
    retries it has left, all with the same request. *)
Lemma urlopen_log (retries : Retry.t) (left : nat) (req : Request.t)
  (w : World) :
  exists k, (1 <= k <= S left)%nat /\
            snd (urlopen retries left req w) = logged w (repeat req k).
Proof.
  revert w. induction left as [|n IH]; intros w; simpl.
  - exists 1%nat. split; [lia|].
    destruct (remote w req (List.length (sent w))) as [r|err]; simpl.
    + destruct (Retry.is_retry retries 0 (Request.method req)
                  (Response.status_code r) (Response.retry_after r));
        [destruct (Retry.raise_on_status retries)|]; reflexivity.
    + reflexivity.
  - assert (Hrec : exists k, (1 <= k <= S (S n))%nat /\
              snd (urlopen retries n req (logged w [req]))
              = logged w (repeat req k)).
    { destruct (IH (logged w [req])) as [k [Hk Hw]].
      exists (S k). split; [lia|]. rewrite Hw, logged_logged. reflexivity. }
    destruct (remote w req (List.length (sent w))) as [r|err]; simpl.
    + destruct (Retry.is_retry retries (S n) (Request.method req)
                  (Response.status_code r) (Response.retry_after r)).
      * exact Hrec.
      * exists 1%nat. split; [lia|]. reflexivity.
    + exact Hrec.
Qed.

(** A response that the policy does not select ends the call at once. *)
Lemma urlopen_no_retry (retries : Retry.t) (left : nat) (req : Request.t)
  (w : World) (r : Response.t) :
  remote w req (List.length (sent w)) = Responded r ->
  Retry.is_retry retries left (Request.method req) (Response.status_code r)
    (Response.retry_after r) = false ->
  urlopen retries left req w = (inr r, logged w [req]).
Proof.
  intros Hr Hno. destruct left; simpl; rewrite Hr, Hno; reflexivity.
Qed.

(** When every attempt fails transiently, all retries are used and the call
    raises one of requests' exceptions. *)
Lemma urlopen_exhausted (retries : Retry.t) (left : nat) (req : Request.t)
  (w : World) :
  Retry.raise_on_status retries = true ->
  (forall i, (List.length (sent w) <= i)%nat ->
             transient retries req (remote w req i)) ->
  exists e, is_RequestException e = true /\ is_HTTPError e = false /\
            urlopen retries left req w
            = (inl e, logged w (repeat req (S left))).
Proof.
  intros Hraise. revert w. induction left as [|n IH]; intros w Hall.
  - pose proof (Hall _ (Nat.le_refl _)) as H0. simpl.
    destruct (remote w req (List.length (sent w))) as [r|err]; simpl in *.
    + destruct H0 as [Hm Hs]. unfold Retry.is_retry. rewrite Hm, Hs, Hraise.
      simpl. eexists. repeat split; reflexivity.
    + eexists. repeat split; reflexivity.
  - pose proof (Hall _ (Nat.le_refl _)) as H0.
    assert (Hrec : exists e, is_RequestException e = true /\
              is_HTTPError e = false /\
              urlopen retries n req (logged w [req])
              = (inl e, logged w (repeat req (S (S n))))).
    { destruct (IH (logged w [req])) as [e [He [Hh Hw]]].
      - intros i Hi. simpl in *. apply Hall.
        rewrite length_app in Hi. simpl in Hi. lia.
      - exists e. repeat split; try assumption.
        rewrite Hw, logged_logged. reflexivity. }
    simpl. destruct (remote w req (List.length (sent w))) as [r|err];
      simpl in *.
    + destruct H0 as [Hm Hs]. unfold Retry.is_retry. rewrite Hm, Hs. simpl.
      exact Hrec.
    + exact Hrec.
Qed.


(** ** The retry policy of the client *)

(** A response that is not an error status is never retried. *)
Lemma ok_not_retried (left : nat) (method : string) (r : Response.t) :
  Response.ok r = true ->
  Retry.is_retry UberAdsClient.retry_strategy left method
    (Response.status_code r) (Response.retry_after r) = false.
Proof.
  unfold Response.ok, Retry.is_retry. intros Hok.
  destruct (Retry.is_method_retryable _ _); [simpl|reflexivity].
  assert (Hs : (Response.status_code r < 400 \/ 600 <= Response.status_code r)%Z)
    by (destruct (Z.leb_spec 400 (Response.status_code r));
        destruct (Z.ltb_spec (Response.status_code r) 600);
        simpl in Hok; try discriminate; lia).
  unfold Retry.mem_Z, Retry.RETRY_AFTER_STATUS_CODES. simpl.
  repeat match goal with
         | |- context [(?a =? ?b)%Z] => destruct (Z.eqb_spec a b); [lia|]
         end.
  simpl. now rewrite !andb_false_r.
Qed.

Section ClientFacts.
Context `{Runtime}.
Variable config : UberAdsConfig.t.

Let self : UberAdsClient.t := UberAdsClient.__init__ config.

(** [_make_request] touches the world through its one [session.request]
    only: between one and four attempts, all with [request_of]. *)
Lemma make_request_log (method endpoint : string)
  (params : list (string * param_value)) (w : World) :
  exists k, (1 <= k <= 4)%nat /\
    snd (UberAdsClient._make_request self method endpoint params w)
    = logged w (repeat (request_of self method endpoint params) k).
Proof.
  unfold UberAdsClient._make_request, try_except, bind, Session.request.
  destruct (urlopen_log UberAdsClient.retry_strategy 3
              (request_of self method endpoint params) w) as [k [Hk Hw]].
  exists k. split; [lia|].
  change (Session.max_retries (UberAdsClient.session self))
    with UberAdsClient.retry_strategy.
  change (Retry.total UberAdsClient.retry_strategy) with 3%nat.
  fold (request_of self method endpoint params).
  destruct (urlopen _ _ _ w) as [[e|r] w1]; simpl in Hw; subst w1.
  - destruct e; simpl; try reflexivity.
  - unfold raise_for_status. destruct (Response.ok r); simpl.
    + destruct (String.eqb _ _); simpl; [reflexivity|].
      unfold lift, response_json. destruct (Response.json r); reflexivity.
    + reflexivity.
Qed.
End ClientFacts.

Section RequestResults.
Context `{Runtime}.
Variable config : UberAdsConfig.t.

Let self : UberAdsClient.t := UberAdsClient.__init__ config.

Lemma make_request_ok (endpoint : string)
  (params : list (string * param_value)) (w : World) (r : Response.t) :
  remote w (request_of self "GET" endpoint params) (List.length (sent w))
  = Responded r ->
  Response.ok r = true ->
  UberAdsClient._make_request self "GET" endpoint params w
  = (decoded r, logged w [request_of self "GET" endpoint params]).
Proof.
  intros Hr Hok.
  unfold UberAdsClient._make_request, try_except, bind, Session.request.
  fold (request_of self "GET" endpoint params).
  rewrite (urlopen_no_retry _ _ _ _ Hr) by (now apply ok_not_retried).
  unfold raise_for_status, decoded. rewrite Hok. simpl.
  destruct (String.eqb _ _); simpl; [reflexivity|].
  unfold lift, response_json. destruct (Response.json r); reflexivity.
Qed.


(** Transient failures on every attempt: four attempts, then a request
    error. *)
Lemma make_request_exhausted (endpoint : string)
  (params : list (string * param_value)) (w : World) :
  (forall i, (List.length (sent w) <= i)%nat ->
     transient UberAdsClient.retry_strategy
       (request_of self "GET" endpoint params)
       (remote w (request_of self "GET" endpoint params) i)) ->
  exists e,
    UberAdsClient._make_request self "GET" endpoint params w
    = (inl (UberAdsAPIError ("Request error: " ++ str e) None),
       logged w (repeat (request_of self "GET" endpoint params) 4)).
Proof.
  intros Hall.
  destruct (urlopen_exhausted UberAdsClient.retry_strategy 3
              (request_of self "GET" endpoint params) w eq_refl Hall)
    as [e [He [Hh Hu]]].
  exists e.
  unfold UberAdsClient._make_request, try_except, bind, Session.request.
  fold (request_of self "GET" endpoint params).
  change (Session.max_retries (UberAdsClient.session self))
    with UberAdsClient.retry_strategy.
  change (Retry.total UberAdsClient.retry_strategy) with 3%nat.
  rewrite Hu. destruct e; simpl in *; try discriminate; reflexivity.
Qed.

End RequestResults.

(** ** The public operations, as one request and a pure rest *)

Ltac split_request :=
  match goal with
  | |- context [UberAdsClient._make_request ?s ?m ?ep ?ps ?w0] =>
      destruct (UberAdsClient._make_request s m ep ps w0) as [[?|?] ?]
  end.

Ltac pure_rest :=
  unfold lift, ret, raise, entities, entity, relabel, and_then; simpl;
  repeat
    (match goal with
     | |- context [py_get ?x ?k ?d] => destruct (py_get x k d) as [?|[]]
     | |- context [construct_all ?t ?v ?l] => destruct (construct_all t v l)
     | |- context [construct ?t ?v ?x] => destruct (construct t v x)
     | |- context [match ?x with Valid _ => _ | Invalid _ _ => _ end] =>
         destruct x
     end; simpl);
  try reflexivity.

Ltac normal_form :=
  intros; unfold try_except, bind; split_request; simpl; pure_rest.

Section NormalForms.
Context `{Runtime}.
Variable self : UberAdsClient.t.

Lemma get_ad_accounts_eq (w : World) :
  UberAdsClient.get_ad_accounts self w
  = let (r, w') := UberAdsClient._make_request self "GET" "/v1/ads" [] w in
    (relabel "Failed to retrieve ad accounts: "
       (and_then r (entities "AdAccount" AdAccount.validate)), w').
Proof. unfold UberAdsClient.get_ad_accounts. normal_form. Qed.

Lemma get_campaigns_eq (ad_account_id : string)
  (options : GetCampaignsOptions.t) (w : World) :
  UberAdsClient.get_campaigns self ad_account_id (Some options) w
  = let (r, w') :=
      UberAdsClient._make_request self "GET"
        ("/v1/ads/" ++ ad_account_id ++ "/campaigns")
        (UberAdsClient.campaigns_params options) w in
    (relabel "Failed to retrieve campaigns: "
       (and_then r (entities "Campaign" Campaign.validate)), w').
Proof. unfold UberAdsClient.get_campaigns. normal_form. Qed.

Lemma get_campaign_details_eq (ad_account_id campaign_id : string)
  (w : World) :
  UberAdsClient.get_campaign_details self ad_account_id campaign_id w
  = let (r, w') :=
      UberAdsClient._make_request self "GET"
        ("/v1/ads/" ++ ad_account_id ++ "/campaigns/" ++ campaign_id) [] w in
    (relabel "Failed to retrieve campaign details: "
       (and_then r (entity "Campaign" Campaign.validate)), w').
Proof. unfold UberAdsClient.get_campaign_details. normal_form. Qed.

Lemma get_campaign_stats_eq (ad_account_id : string)
  (campaign_ids : list string) (start_date end_date : string)
  (metrics : option (list string)) (w : World) :
  UberAdsClient.get_campaign_stats self ad_account_id campaign_ids start_date
    end_date metrics w
  = let (r, w') :=
      UberAdsClient._make_request self "GET"
        ("/v1/ads/" ++ ad_account_id ++ "/reports/campaigns")
        (UberAdsClient.stats_params campaign_ids start_date end_date metrics)
        w in
    (relabel "Failed to retrieve campaign stats: "
       (and_then r (entities "CampaignStats" CampaignStats.validate)), w').
Proof. unfold UberAdsClient.get_campaign_stats. normal_form. Qed.
End NormalForms.

(** ** The query of a campaign listing *)

Lemma campaigns_params_spec (options : GetCampaignsOptions.t) :
  let query := UberAdsClient.campaigns_params options in
  dict_get "limit" query
  = (if truthy_int (GetCampaignsOptions.limit options)
     then option_map PInt (GetCampaignsOptions.limit options) else None)
  /\ dict_get "offset" query
     = (if truthy_int (GetCampaignsOptions.offset options)
        then option_map PInt (GetCampaignsOptions.offset options) else None)
  /\ dict_get "status" query
     = option_map (fun s => PStr (StatusFilter.to_str s))
         (GetCampaignsOptions.status options)
  /\ dict_get "sort_by" query
     = option_map (fun s => PStr (GetCampaignsOptions.sort_by_str s))
         (GetCampaignsOptions.sort_by options)
  /\ dict_get "sort_order" query
     = option_map (fun s => PStr (GetCampaignsOptions.sort_order_str s))
         (GetCampaignsOptions.sort_order options)
  /\ incl (keys query) ["limit"; "offset"; "status"; "sort_by"; "sort_order"].
Proof.
  destruct options as [limit offset status objective sort_by sort_order].
  unfold UberAdsClient.campaigns_params, truthy_int. simpl.
  destruct limit as [n|]; [destruct (Z.eqb n 0)|];
    (destruct offset as [m|]; [destruct (Z.eqb m 0)|]);
    destruct status; destruct sort_by; destruct sort_order; simpl;
    repeat split; try reflexivity;
    intros k Hk; simpl in *; intuition.
Qed.


Section Runs.
#[local] Existing Instance Sample.runtime.

End Runs.

(** ** Dumping and validating again *)

Section RoundTrip.
Context `{Runtime}.

Lemma v_items_dump (A : Type) (v : json -> validation A) (dump : A -> json) :
  (forall a, v (dump a) = Valid a) ->
  forall (l : list A) (i : nat), v_items v i (map dump l) = Valid l.
Proof.
  intros Hv. induction l as [|a l IH]; intros i; simpl.
  - reflexivity.
  - now rewrite Hv, IH.
Qed.

Lemma v_list_dump (A : Type) (v : json -> validation A) (dump : A -> json) :
  (forall a, v (dump a) = Valid a) ->
  forall l : list A, v_list v (d_list dump l) = Valid l.
Proof. intros Hv l. unfold v_list, d_list. now apply v_items_dump. Qed.

Lemma v_dict_dump (A : Type) (v : json -> validation A) (dump : A -> json) :
  (forall a, v (dump a) = Valid a) ->
  forall d : list (string * A), v_dict v (d_dict dump d) = Valid d.
Proof.
  intros Hv d. unfold v_dict, d_dict.
  induction d as [|[k a] d IH]; simpl.
  - reflexivity.
  - now rewrite Hv, IH.
Qed.

Lemma v_optional_dump (A : Type) (v : json -> validation A)
  (dump : A -> json) :
  (forall a, v (dump a) = Valid a) ->
  (forall a, dump a <> JNull) ->
  forall o : option A, v_optional v (d_optional dump o) = Valid o.
Proof.
  intros Hv Hn [a|]; simpl; [|reflexivity].
  unfold v_optional. specialize (Hv a). specialize (Hn a).
  destruct (dump a); try (now rewrite Hv). now contradiction Hn.
Qed.

Lemma v_str_dump (s : string) : v_str (JStr s) = Valid s.
Proof. reflexivity. Qed.










End RoundTrip.


(** ** Retries *)

Lemma mem_Z_In (x : Z) (l : list Z) : In x l -> Retry.mem_Z x l = true.
Proof.
  intros Hin. unfold Retry.mem_Z. apply existsb_exists.
  exists x. split; [exact Hin|apply Z.eqb_refl].
Qed.


Section RetryPolicy.
Context `{Runtime}.
Variable config : UberAdsConfig.t.

Let self : UberAdsClient.t := UberAdsClient.__init__ config.

End RetryPolicy.


Section RetryRuns.
#[local] Existing Instance Sample.runtime.


End RetryRuns.

(** ** The handlers, as a validation, one request and a pure rest *)

Ltac handler_normal_form :=
  unfold try_except, bind, lift, construct, invalid_arguments;
  match goal with
  | |- context [match ?v ?d with Valid _ => _ | Invalid _ _ => _ end] =>
      destruct (v d) as [args|e es]; simpl; [|reflexivity]
  | _ => idtac
  end.

Ltac after_request :=
  simpl; split_request; simpl; unfold reported, relabel, and_then, ret; simpl;
  try reflexivity;
  match goal with
  | |- context [entities ?t ?v ?j] => destruct (entities t v j)
  | |- context [entity ?t ?v ?j] => destruct (entity t v j)
  end; reflexivity.

Section Handlers.
Context `{Runtime}.
Variable server : UberAdsMCPServer.t.

Let client : UberAdsClient.t := UberAdsMCPServer.client server.

Lemma options_of_args_eq (args : GetCampaignsArgs.t) :
  UberAdsMCPServer.options_of_args args = inr (listing_options args).
Proof.
  destruct args as [ad_account_id limit offset status].
  unfold UberAdsMCPServer.options_of_args, construct,
    GetCampaignsOptions.validate, with_default, listing_options. simpl.
  destruct limit, offset, status as [[]|]; reflexivity.
Qed.

Lemma handle_get_ad_accounts_eq (w : World) :
  UberAdsMCPServer.handle_get_ad_accounts server w
  = let (r, w') := UberAdsClient._make_request client "GET" "/v1/ads" [] w in
    (inr (reported "Error retrieving ad accounts: "
            "Failed to retrieve ad accounts: "
            (fun accounts => JList (map AdAccount.model_dump accounts))
            (and_then r (entities "AdAccount" AdAccount.validate))), w').
Proof.
  unfold UberAdsMCPServer.handle_get_ad_accounts. handler_normal_form.
  rewrite get_ad_accounts_eq. fold client. after_request.
Qed.

Lemma handle_get_campaigns_eq (arguments : dict) (w : World) :
  UberAdsMCPServer.handle_get_campaigns server arguments w
  = match GetCampaignsArgs.validate arguments with
    | Invalid e es => (inr (invalid_arguments "GetCampaignsArgs" e es), w)
    | Valid args =>
        let (r, w') :=
          UberAdsClient._make_request client "GET"
            ("/v1/ads/" ++ GetCampaignsArgs.ad_account_id args ++ "/campaigns")
            (UberAdsClient.campaigns_params (listing_options args)) w in
        (inr (reported "Error retrieving campaigns: "
                "Failed to retrieve campaigns: "
                (fun campaigns => JList (map Campaign.model_dump campaigns))
                (and_then r (entities "Campaign" Campaign.validate))), w')
    end.
Proof.
  unfold UberAdsMCPServer.handle_get_campaigns. handler_normal_form.
  rewrite options_of_args_eq. simpl. rewrite get_campaigns_eq. fold client.
  after_request.
Qed.

Lemma handle_get_campaign_details_eq (arguments : dict) (w : World) :
  UberAdsMCPServer.handle_get_campaign_details server arguments w
  = match GetCampaignDetailsArgs.validate arguments with
    | Invalid e es =>
        (inr (invalid_arguments "GetCampaignDetailsArgs" e es), w)
    | Valid args =>
        let (r, w') :=
          UberAdsClient._make_request client "GET"
            ("/v1/ads/" ++ GetCampaignDetailsArgs.ad_account_id args
             ++ "/campaigns/" ++ GetCampaignDetailsArgs.campaign_id args)
            [] w in
        (inr (reported "Error retrieving campaign details: "
                "Failed to retrieve campaign details: " Campaign.model_dump
                (and_then r (entity "Campaign" Campaign.validate))), w')
    end.
Proof.
  unfold UberAdsMCPServer.handle_get_campaign_details. handler_normal_form.
  rewrite get_campaign_details_eq. fold client. after_request.
Qed.

Lemma handle_get_campaign_stats_eq (arguments : dict) (w : World) :
  UberAdsMCPServer.handle_get_campaign_stats server arguments w
  = match GetCampaignStatsArgs.validate arguments with
    | Invalid e es => (inr (invalid_arguments "GetCampaignStatsArgs" e es), w)
    | Valid args =>
        let (r, w') :=
          UberAdsClient._make_request client "GET"
            ("/v1/ads/" ++ GetCampaignStatsArgs.ad_account_id args
             ++ "/reports/campaigns")
            (UberAdsClient.stats_params
               (GetCampaignStatsArgs.campaign_ids args)
               (GetCampaignStatsArgs.start_date args)
               (GetCampaignStatsArgs.end_date args)
               (GetCampaignStatsArgs.metrics args)) w in
        (inr (reported "Error retrieving campaign stats: "
                "Failed to retrieve campaign stats: "
                (fun stats => JList (map CampaignStats.model_dump stats))
                (and_then r (entities "CampaignStats" CampaignStats.validate))),
         w')
    end.
Proof.
  unfold UberAdsMCPServer.handle_get_campaign_stats. handler_normal_form.
  rewrite get_campaign_stats_eq. fold client. after_request.
Qed.

(** Every handler returns: nothing it calls can raise past it. *)
Lemma handlers_return (name : string) (arguments : dict) (w : World) :
  exists envelope,
    fst ((if String.eqb name "get_ad_accounts" then
            UberAdsMCPServer.handle_get_ad_accounts server
          else if String.eqb name "get_campaigns" then
            UberAdsMCPServer.handle_get_campaigns server arguments
          else if String.eqb name "get_campaign_details" then
            UberAdsMCPServer.handle_get_campaign_details server arguments
          else if String.eqb name "get_campaign_stats" then
            UberAdsMCPServer.handle_get_campaign_stats server arguments
          else ret (CallToolResult.error ("Unknown tool: " ++ name))) w)
    = inr envelope.
Proof.
  destruct (String.eqb name "get_ad_accounts");
    [rewrite handle_get_ad_accounts_eq; split_request; simpl; eauto|].
  destruct (String.eqb name "get_campaigns");
    [rewrite handle_get_campaigns_eq;
     destruct (GetCampaignsArgs.validate arguments); simpl; eauto;
     split_request; simpl; eauto|].
  destruct (String.eqb name "get_campaign_details");
    [rewrite handle_get_campaign_details_eq;
     destruct (GetCampaignDetailsArgs.validate arguments); simpl; eauto;
     split_request; simpl; eauto|].
  destruct (String.eqb name "get_campaign_stats");
    [rewrite handle_get_campaign_stats_eq;
     destruct (GetCampaignStatsArgs.validate arguments); simpl; eauto;
     split_request; simpl; eauto|].
  simpl. eauto.
Qed.

(** The outer [try] of [call_tool] never catches anything: a call is the
    handler of its name. *)
Lemma call_tool_eq (name : string) (arguments : dict) (w : World) :
  call_tool server name arguments w
  = (if String.eqb name "get_ad_accounts" then
       UberAdsMCPServer.handle_get_ad_accounts server
     else if String.eqb name "get_campaigns" then
       UberAdsMCPServer.handle_get_campaigns server arguments
     else if String.eqb name "get_campaign_details" then
       UberAdsMCPServer.handle_get_campaign_details server arguments
     else if String.eqb name "get_campaign_stats" then
       UberAdsMCPServer.handle_get_campaign_stats server arguments
     else ret (CallToolResult.error ("Unknown tool: " ++ name))) w.
Proof.
  unfold call_tool, try_except.
  destruct (handlers_return name arguments w) as [envelope He].
  match type of He with
  | fst ?run = _ => destruct run as [[e|a] w']
  end; simpl in He; [discriminate|reflexivity].
Qed.
End Handlers.

(** ** The dispatcher *)

(** C6.  A name outside the four tools gets the error envelope whose text is
    "Unknown tool: " followed by the name, and nothing is sent; and whatever
    the name and the arguments, [call_tool] returns an envelope: no exception
    leaves it. *)
Theorem call_tool_always_returns `{Runtime} (server : UberAdsMCPServer.t) :
  (forall name arguments w,
     ~ In name TOOLS ->
     call_tool server name arguments w
     = (inr (CallToolResult.error ("Unknown tool: " ++ name)), w))
  /\ (forall name arguments w,
        exists envelope,
          fst (call_tool server name arguments w) = inr envelope).
Proof.
  split.
  - intros name arguments w Hout. rewrite call_tool_eq.
    destruct (String.eqb_spec name "get_ad_accounts") as [->|_];
      [exfalso; apply Hout; simpl; auto|].
    destruct (String.eqb_spec name "get_campaigns") as [->|_];
      [exfalso; apply Hout; simpl; auto|].
    destruct (String.eqb_spec name "get_campaign_details") as [->|_];
      [exfalso; apply Hout; simpl; auto|].
    destruct (String.eqb_spec name "get_campaign_stats") as [->|_];
      [exfalso; apply Hout; simpl; auto|].
    reflexivity.
  - intros name arguments w. rewrite call_tool_eq. apply handlers_return.
Qed.

(** ** Argument validation *)

Lemma errors_of_vap (A B : Type) (vf : validation (A -> B))
  (va : validation A) :
  errors_of (vap vf va) = (errors_of vf ++ errors_of va)%list.
Proof.
  destruct vf, va; simpl; try reflexivity. now rewrite app_nil_r.
Qed.

Lemma errors_of_vmap (A B : Type) (f : A -> B) (v : validation A) :
  errors_of (vmap f v) = errors_of v.
Proof. destruct v; reflexivity. Qed.

Lemma is_valid_vap (A B : Type) (vf : validation (A -> B))
  (va : validation A) :
  is_valid (vap vf va) = is_valid vf && is_valid va.
Proof. destruct vf, va; reflexivity. Qed.

Lemma is_valid_vmap (A B : Type) (f : A -> B) (v : validation A) :
  is_valid (vmap f v) = is_valid v.
Proof. destruct v; reflexivity. Qed.

Lemma is_valid_at_loc (A : Type) (i : loc_item) (v : validation A) :
  is_valid (at_loc i v) = is_valid v.
Proof. destruct v; reflexivity. Qed.




Lemma required_missing (A : Type) (d : dict) (k : string)
  (v : json -> validation A) :
  dict_get k d = None ->
  errors_of (required d k v) = [LineError [LKey k] missing].
Proof. intros Hk. unfold required. now rewrite Hk. Qed.



Section ArgumentErrors.
Context `{Runtime}.



End ArgumentErrors.


Section DispatcherRuns.
#[local] Existing Instance Sample.runtime.

(** The scenario of the unknown tool. *)
Lemma call_tool_always_returns_witness :
  call_tool Sample.server "nonexistent_tool" [] Sample.unreachable
  = (inr (CallToolResult.error "Unknown tool: nonexistent_tool"),
     Sample.unreachable).
Proof.
  apply (proj1 (call_tool_always_returns Sample.server)).
  simpl. intros [E|[E|[E|[E|[]]]]]; discriminate E.
Defined.

End DispatcherRuns.

(** ** Which mappings are rejected *)

Lemma violates_not_ok (schema : list field_schema) (arguments : dict) :
  violates schema arguments -> forallb (field_ok arguments) schema = false.
Proof.
  intros [f [Hin Hf]]. induction schema as [|g schema IH]; simpl.
  - contradiction.
  - destruct Hin as [->|Hin].
    + unfold field_ok at 1.
      destruct (dict_get (field_name f) arguments); rewrite Hf; reflexivity.
    + rewrite (IH Hin). apply andb_false_r.
Qed.

Lemma is_valid_required (A : Type) (d : dict) (k : string)
  (v : json -> validation A) :
  is_valid (required d k v) = field_ok d (Field k true (accepts v)).
Proof.
  unfold required, field_ok, accepts. simpl.
  destruct (dict_get k d); [apply is_valid_at_loc|reflexivity].
Qed.

Lemma is_valid_with_default (A : Type) (d : dict) (k : string)
  (v : json -> validation A) (default : A) :
  is_valid (with_default d k v default) = field_ok d (Field k false (accepts v)).
Proof.
  unfold with_default, field_ok, accepts. simpl.
  destruct (dict_get k d); [apply is_valid_at_loc|reflexivity].
Qed.

Ltac conforms :=
  rewrite ?is_valid_vap, ?is_valid_vmap, ?is_valid_required,
    ?is_valid_with_default;
  simpl; rewrite ?andb_true_r, <- ?andb_assoc; reflexivity.

Lemma dict_get_cons_other (A : Type) (k k0 : string) (x : A)
  (d : list (string * A)) :
  k <> k0 -> dict_get k0 ((k, x) :: d) = dict_get k0 d.
Proof.
  intros Hk. simpl. destruct (String.eqb_spec k k0); [contradiction|].
  reflexivity.
Qed.

Lemma required_cons_other (A : Type) (k k0 : string) (x : json) (d : dict)
  (v : json -> validation A) :
  k <> k0 -> required ((k, x) :: d) k0 v = required d k0 v.
Proof. intros Hk. unfold required. now rewrite dict_get_cons_other. Qed.

Lemma with_default_cons_other (A : Type) (k k0 : string) (x : json)
  (d : dict) (v : json -> validation A) (default : A) :
  k <> k0 ->
  with_default ((k, x) :: d) k0 v default = with_default d k0 v default.
Proof. intros Hk. unfold with_default. now rewrite dict_get_cons_other. Qed.

Ltac undeclared :=
  intros k x d Hk; simpl in Hk;
  rewrite ?required_cons_other, ?with_default_cons_other
    by (intros ->; apply Hk; auto 10);
  reflexivity.

Section Schemas.
Context `{Runtime}.

Lemma GetCampaignsArgs_conforms (d : dict) :
  is_valid (GetCampaignsArgs.validate d)
  = forallb (field_ok d) GetCampaignsArgs.schema.
Proof. unfold GetCampaignsArgs.validate. conforms. Qed.

Lemma GetCampaignDetailsArgs_conforms (d : dict) :
  is_valid (GetCampaignDetailsArgs.validate d)
  = forallb (field_ok d) GetCampaignDetailsArgs.schema.
Proof. unfold GetCampaignDetailsArgs.validate. conforms. Qed.

Lemma GetCampaignStatsArgs_conforms (d : dict) :
  is_valid (GetCampaignStatsArgs.validate d)
  = forallb (field_ok d) GetCampaignStatsArgs.schema.
Proof. unfold GetCampaignStatsArgs.validate. conforms. Qed.

Lemma GetCampaignsArgs_undeclared :
  ignores_undeclared GetCampaignsArgs.validate GetCampaignsArgs.fields.
Proof. unfold GetCampaignsArgs.validate. undeclared. Qed.

Lemma GetCampaignDetailsArgs_undeclared :
  ignores_undeclared GetCampaignDetailsArgs.validate
    GetCampaignDetailsArgs.fields.
Proof. unfold GetCampaignDetailsArgs.validate. undeclared. Qed.

Lemma GetCampaignStatsArgs_undeclared :
  ignores_undeclared GetCampaignStatsArgs.validate
    GetCampaignStatsArgs.fields.
Proof. unfold GetCampaignStatsArgs.validate. undeclared. Qed.
End Schemas.

Lemma rejected_call `{Runtime} (server : UberAdsMCPServer.t) (name : string)
  (arguments : dict) (w : World) (envelope_text : string) :
  call_tool server name arguments w
  = (inr (CallToolResult.error envelope_text), w) ->
  attempts (call_tool server name arguments) w = 0%nat
  /\ exists text,
       fst (call_tool server name arguments w)
       = inr (CallToolResult.error text).
Proof.
  intros Hcall. unfold attempts. rewrite Hcall. simpl. split.
  - apply Nat.sub_diag.
  - eauto.
Qed.

(** C3 (as amended).  For [get_campaigns], [get_campaign_details] and
    [get_campaign_stats], a mapping in which a declared field is absent
    though it has no default, or holds a value its declared type does not
    accept, is rejected: the call returns an error envelope and makes no
    attempt on the network.  A key that is not a declared field is ignored:
    validation gives what it gives without it. *)
Theorem violations_are_rejected `{Runtime} (server : UberAdsMCPServer.t) :
  (rejects_violations server "get_campaigns" GetCampaignsArgs.schema
   /\ ignores_undeclared GetCampaignsArgs.validate GetCampaignsArgs.fields)
  /\ (rejects_violations server "get_campaign_details"
        GetCampaignDetailsArgs.schema
      /\ ignores_undeclared GetCampaignDetailsArgs.validate
           GetCampaignDetailsArgs.fields)
  /\ (rejects_violations server "get_campaign_stats"
        GetCampaignStatsArgs.schema
      /\ ignores_undeclared GetCampaignStatsArgs.validate
           GetCampaignStatsArgs.fields).
Proof.
  split; [|split]; split;
    try apply GetCampaignsArgs_undeclared;
    try apply GetCampaignDetailsArgs_undeclared;
    try apply GetCampaignStatsArgs_undeclared;
    intros arguments w Hv; apply violates_not_ok in Hv.
  - rewrite <- GetCampaignsArgs_conforms in Hv.
    destruct (GetCampaignsArgs.validate arguments) as [a|e es] eqn:E;
      [discriminate|].
    eapply rejected_call. rewrite call_tool_eq. simpl.
    rewrite handle_get_campaigns_eq, E. reflexivity.
  - rewrite <- GetCampaignDetailsArgs_conforms in Hv.
    destruct (GetCampaignDetailsArgs.validate arguments) as [a|e es] eqn:E;
      [discriminate|].
    eapply rejected_call. rewrite call_tool_eq. simpl.
    rewrite handle_get_campaign_details_eq, E. reflexivity.
  - rewrite <- GetCampaignStatsArgs_conforms in Hv.
    destruct (GetCampaignStatsArgs.validate arguments) as [a|e es] eqn:E;
      [discriminate|].
    eapply rejected_call. rewrite call_tool_eq. simpl.
    rewrite handle_get_campaign_stats_eq, E. reflexivity.
Qed.

Section ValidationRuns.
#[local] Existing Instance Sample.runtime.

(** C3, as stated, fails on a mapping with a field the tool does not
    declare: [get_campaigns] called with an account and a [bogus] field is
    not rejected, and the request goes out. *)
Lemma undeclared_field_reaches_the_remote :
  existsb (String.eqb "bogus") GetCampaignsArgs.fields = false
  /\ is_valid (GetCampaignsArgs.validate
                 [("ad_account_id", JStr "acct-1"); ("bogus", JInt 1)]) = true
  /\ attempts
       (call_tool Sample.server "get_campaigns"
          [("ad_account_id", JStr "acct-1"); ("bogus", JInt 1)])
       (Sample.always
          (Sample.respond 200 "OK"
             (Some (JDict [("data", JList [Sample.campaign_json])]))))
     = 1%nat
  /\ attempts
       (call_tool Sample.server "get_ad_accounts" [("bogus", JInt 1)])
       (Sample.always
          (Sample.respond 200 "OK"
             (Some (JDict [("data", JList [Sample.account_json])]))))
     = 1%nat.
Proof. repeat split; reflexivity. Qed.

(** A limit that is a list is of the wrong type; a details call without the
    campaign lacks a required field.  Both are rejected without an attempt. *)
Lemma violations_are_rejected_witness :
  attempts
    (call_tool Sample.server "get_campaigns"
       [("ad_account_id", JStr "acct-1"); ("limit", JList [])])
    Sample.unreachable = 0%nat
  /\ attempts
       (call_tool Sample.server "get_campaign_details"
          [("ad_account_id", JStr "acct-1")])
       Sample.unreachable = 0%nat.
Proof.
  destruct (violations_are_rejected Sample.server)
    as [[Hcampaigns _] [[Hdetails _] _]].
  split.
  - apply Hcampaigns.
    exists (Field "limit" false (accepts (v_optional v_int))).
    split; [simpl; auto|reflexivity].
  - apply Hdetails.
    exists (Field "campaign_id" true (accepts v_str)).
    split; [simpl; auto|reflexivity].
Defined.
End ValidationRuns.

(** ** Headers *)

Lemma skipn_own_length (A : Type) (l l' : list A) :
  skipn (List.length l) (l ++ l')%list = l'.
Proof. induction l as [|a l IH]; simpl; [reflexivity|exact IH]. Qed.

Section Headers.
Context `{Runtime}.
Variable config : UberAdsConfig.t.

Let self : UberAdsClient.t := UberAdsClient.__init__ config.

Lemma session_headers (method endpoint : string)
  (params : list (string * param_value)) :
  authenticated UberAdsClient.ACCESS_TOKEN
    (request_of self method endpoint params).
Proof.
  unfold authenticated, request_of, self, UberAdsClient.__init__,
    dict_update. simpl.
  repeat split.
  - apply dict_get_set_same.
  - rewrite dict_get_set_other by reflexivity. apply dict_get_set_same.
  - rewrite !dict_get_set_other by reflexivity. apply dict_get_set_same.
Qed.

(** An operation that is one request and a pure rest sends authenticated
    requests only. *)
Lemma authenticated_request (A : Type) (m : M A) (method endpoint : string)
  (params : list (string * param_value)) (rest : exn + json -> exn + A) :
  (forall w,
     m w = let (r, w') :=
             UberAdsClient._make_request self method endpoint params w in
           (rest r, w')) ->
  sends_authenticated UberAdsClient.ACCESS_TOKEN m.
Proof.
  intros Hm w. unfold new_requests. rewrite Hm.
  destruct (make_request_log config method endpoint params w)
    as [k [_ Hw]].
  fold self in Hw.
  destruct (UberAdsClient._make_request self method endpoint params w)
    as [r w'].
  simpl in *. subst w'. simpl. rewrite skipn_own_length.
  apply Forall_forall. intros req Hreq. apply repeat_spec in Hreq.
  subst req. apply session_headers.
Qed.
End Headers.

(** Whatever the environment the configuration is loaded from, the token of
    the client is the literal its constructor assigns, and every request
    that any public operation sends carries [Authorization: Bearer] with
    that token, [Accept: application/json] and
    [Content-Type: application/json]. *)
Lemma requests_carry_the_fixed_token `{Runtime}
  (env : string -> option string)
  (ad_account_id campaign_id start_date end_date : string)
  (options : GetCampaignsOptions.t) (campaign_ids : list string)
  (metrics : option (list string)) :
  let self := UberAdsMCPServer.client (UberAdsMCPServer.__init__ env) in
  UberAdsClient.access_token self = UberAdsClient.ACCESS_TOKEN
  /\ sends_authenticated UberAdsClient.ACCESS_TOKEN
       (UberAdsClient.get_ad_accounts self)
  /\ sends_authenticated UberAdsClient.ACCESS_TOKEN
       (UberAdsClient.get_campaigns self ad_account_id (Some options))
  /\ sends_authenticated UberAdsClient.ACCESS_TOKEN
       (UberAdsClient.get_campaign_details self ad_account_id campaign_id)
  /\ sends_authenticated UberAdsClient.ACCESS_TOKEN
       (UberAdsClient.get_campaign_stats self ad_account_id campaign_ids
          start_date end_date metrics).
Proof.
  intros self. split; [reflexivity|].
  split; [|split; [|split]];
    eapply (@authenticated_request _ (UberAdsMCPServer._load_config env));
    intros w.
  - rewrite get_ad_accounts_eq.
    instantiate (1 := fun r =>
      relabel "Failed to retrieve ad accounts: "
        (and_then r (entities "AdAccount" AdAccount.validate))).
    reflexivity.
  - rewrite get_campaigns_eq.
    instantiate (1 := fun r =>
      relabel "Failed to retrieve campaigns: "
        (and_then r (entities "Campaign" Campaign.validate))).
    reflexivity.
  - rewrite get_campaign_details_eq.
    instantiate (1 := fun r =>
      relabel "Failed to retrieve campaign details: "
        (and_then r (entity "Campaign" Campaign.validate))).
    reflexivity.
  - rewrite get_campaign_stats_eq.
    instantiate (1 := fun r =>
      relabel "Failed to retrieve campaign stats: "
        (and_then r (entities "CampaignStats" CampaignStats.validate))).
    reflexivity.
Qed.

Section HeaderRuns.
#[local] Existing Instance Sample.runtime.

End HeaderRuns.

(** ** Response shapes *)

Lemma construct_all_Forall2 (A : Type) (title : string)
  (validate : dict -> validation A) (l : list json) (built : list A) :
  Forall2 (fun x a => construct title validate x = inr a) l built ->
  construct_all title validate l = inr built.
Proof.
  induction 1 as [|x a l built Hx _ IH]; simpl.
  - reflexivity.
  - now rewrite Hx, IH.
Qed.

Section Shapes.
Context `{Runtime}.
Variable config : UberAdsConfig.t.

Let self : UberAdsClient.t := UberAdsClient.__init__ config.

Lemma normalizes_of_request (A : Type) (m : M (list A))
  (endpoint label title : string) (params : list (string * param_value))
  (validate : dict -> validation A) :
  (forall w,
     m w = let (r, w') :=
             UberAdsClient._make_request self "GET" endpoint params w in
           (relabel label (and_then r (entities title validate)), w')) ->
  normalizes title validate m.
Proof.
  intros Hm w r d Hr Hok Hd.
  pose proof (make_request_ok config endpoint params w (Hr _) Hok) as Hreq.
  fold self in Hreq.
  assert (Hrun : fst (m w)
                 = relabel label (entities title validate (JDict d))).
  { rewrite Hm, Hreq, Hd. reflexivity. }
  rewrite Hrun. unfold entities, py_get. repeat split.
  - intros l built Hdata Hall. rewrite Hdata.
    now rewrite (@construct_all_Forall2 _ _ _ _ _ Hall).
  - intros o a Hdata Hv. rewrite Hdata. unfold construct. now rewrite Hv.
  - intros a Hdata Hv. rewrite Hdata. unfold construct. now rewrite Hv.
Qed.
End Shapes.

(** C4 (as amended).  For a successful response whose body is a JSON object,
    each of [get_ad_accounts], [get_campaigns] and [get_campaign_stats]
    returns a list of validated entities: when the object holds a list under
    [data], one entity per element; when it holds a single object under
    [data], or is itself the single object, a list of one. *)
Theorem list_operations_normalize `{Runtime} (config : UberAdsConfig.t)
  (ad_account_id start_date end_date : string)
  (options : GetCampaignsOptions.t) (campaign_ids : list string)
  (metrics : option (list string)) :
  let self := UberAdsClient.__init__ config in
  normalizes "AdAccount" AdAccount.validate
    (UberAdsClient.get_ad_accounts self)
  /\ normalizes "Campaign" Campaign.validate
       (UberAdsClient.get_campaigns self ad_account_id (Some options))
  /\ normalizes "CampaignStats" CampaignStats.validate
       (UberAdsClient.get_campaign_stats self ad_account_id campaign_ids
          start_date end_date metrics).
Proof.
  intros self. split; [|split];
    eapply (@normalizes_of_request _ config); intros w.
  - apply get_ad_accounts_eq.
  - apply get_campaigns_eq.
  - apply get_campaign_stats_eq.
Qed.

Section ShapeRuns.
#[local] Existing Instance Sample.runtime.

(** C4, as stated, fails on a body that is a list of objects without the
    [data] wrapper: the one account of the list is a valid account, and the
    operation raises instead of returning it. *)
Lemma bare_list_is_not_normalized :
  construct_all "AdAccount" AdAccount.validate [Sample.account_json]
  = inr [Sample.account]
  /\ fst (UberAdsClient.get_ad_accounts Sample.client
            (Sample.always
               (Sample.respond 200 "OK"
                  (Some (JList [Sample.account_json])))))
     = inl (UberAdsAPIError
              "Failed to retrieve ad accounts: object has no attribute 'get'"
              None).
Proof. split; reflexivity. Qed.

(** A list of one campaign under [data], and the same campaign as the body
    itself, both give the list of that campaign. *)
Lemma list_operations_normalize_witness :
  fst (UberAdsClient.get_campaigns Sample.client "acct-1"
         (Some GetCampaignsOptions.default)
         (Sample.always
            (Sample.respond 200 "OK"
               (Some (JDict [("data", JList [Sample.campaign_json])])))))
  = inr [Sample.campaign]
  /\ fst (UberAdsClient.get_campaigns Sample.client "acct-1"
            (Some GetCampaignsOptions.default)
            (Sample.always
               (Sample.respond 200 "OK" (Some Sample.campaign_json))))
     = inr [Sample.campaign].
Proof.
  destruct (@list_operations_normalize Sample.runtime
              (UberAdsMCPServer._load_config Sample.no_env)
              "acct-1" "2024-01-01" "2024-01-31" GetCampaignsOptions.default
              ["c1"] None)
    as [_ [Hcampaigns _]].
  split.
  - refine (proj1 (Hcampaigns _ _ [("data", JList [Sample.campaign_json])]
                     _ _ _) [Sample.campaign_json] [Sample.campaign] _ _).
    + intros req. reflexivity.
    + reflexivity.
    + reflexivity.
    + reflexivity.
    + repeat constructor.
  - refine (proj2 (proj2 (Hcampaigns _ _ _ _ _ _)) Sample.campaign _ _).
    + intros req. reflexivity.
    + reflexivity.
    + reflexivity.
    + reflexivity.
    + reflexivity.
Defined.
End ShapeRuns.

(** ** Failures of the response *)

Section Shielding.
Context `{Runtime}.
Variable env : string -> option string.

Let server : UberAdsMCPServer.t := UberAdsMCPServer.__init__ env.
Let self : UberAdsClient.t := UberAdsMCPServer.client server.

Lemma shields_of_request (A : Type) (what label endpoint : string)
  (params : list (string * param_value)) (pure : json -> exn + A)
  (payload : A -> json) (operation : M A) (call : M CallToolResult.t) :
  (forall w,
     operation w
     = let (r, w') :=
         UberAdsClient._make_request self "GET" endpoint params w in
       (relabel label (and_then r pure), w')) ->
  (forall w,
     call w
     = let (r, w') :=
         UberAdsClient._make_request self "GET" endpoint params w in
       (inr (reported what label payload (and_then r pure)), w')) ->
  shields what label pure payload operation call.
Proof.
  intros Hop Hcall. split; [|split].
  - intros w. rewrite Hop.
    destruct (UberAdsClient._make_request self "GET" endpoint params w)
      as [[e|j] w']; simpl; [eauto|].
    destruct (pure j); simpl; eauto.
  - intros w. rewrite Hcall.
    destruct (UberAdsClient._make_request self "GET" endpoint params w)
      as [r w']; simpl. eauto.
  - intros w resp body e Hresp Hok Hbody Hpure.
    pose proof (make_request_ok (UberAdsMCPServer._load_config env) endpoint
                  params w (Hresp _) Hok) as Hreq.
    change (UberAdsClient.__init__ (UberAdsMCPServer._load_config env))
      with self in Hreq.
    rewrite Hop, Hcall, Hreq, Hbody. simpl. rewrite Hpure. simpl.
    split; reflexivity.
Qed.
End Shielding.

(** C10.  No failure of a response leaves a client operation as anything
    but an [UberAdsAPIError] whose message starts with the operation's
    "Failed to retrieve ...: " label.  In particular a successful response
    whose decoded body does not validate as the entity (an empty body decodes
    to the empty object, which validates as none of the three entities)
    makes the operation raise that error with the text of the validation
    failure, and the dispatcher report "Error retrieving ...: " before it.
    With arguments that validate, the envelope of a call is the payload or
    such a report: "Invalid arguments: " comes from the validation of the
    arguments alone. *)
Theorem response_failures_are_api_errors `{Runtime}
  (env : string -> option string) (arguments : dict) :
  let server := UberAdsMCPServer.__init__ env in
  let self := UberAdsMCPServer.client server in
  shields "Error retrieving ad accounts: " "Failed to retrieve ad accounts: "
    (entities "AdAccount" AdAccount.validate)
    (fun accounts => JList (map AdAccount.model_dump accounts))
    (UberAdsClient.get_ad_accounts self)
    (call_tool server "get_ad_accounts" arguments)
  /\ (forall args,
        GetCampaignsArgs.validate arguments = Valid args ->
        shields "Error retrieving campaigns: "
          "Failed to retrieve campaigns: "
          (entities "Campaign" Campaign.validate)
          (fun campaigns => JList (map Campaign.model_dump campaigns))
          (UberAdsClient.get_campaigns self
             (GetCampaignsArgs.ad_account_id args)
             (Some (listing_options args)))
          (call_tool server "get_campaigns" arguments))
  /\ (forall args,
        GetCampaignDetailsArgs.validate arguments = Valid args ->
        shields "Error retrieving campaign details: "
          "Failed to retrieve campaign details: "
          (entity "Campaign" Campaign.validate) Campaign.model_dump
          (UberAdsClient.get_campaign_details self
             (GetCampaignDetailsArgs.ad_account_id args)
             (GetCampaignDetailsArgs.campaign_id args))
          (call_tool server "get_campaign_details" arguments))
  /\ (forall args,
        GetCampaignStatsArgs.validate arguments = Valid args ->
        shields "Error retrieving campaign stats: "
          "Failed to retrieve campaign stats: "
          (entities "CampaignStats" CampaignStats.validate)
          (fun stats => JList (map CampaignStats.model_dump stats))
          (UberAdsClient.get_campaign_stats self
             (GetCampaignStatsArgs.ad_account_id args)
             (GetCampaignStatsArgs.campaign_ids args)
             (GetCampaignStatsArgs.start_date args)
             (GetCampaignStatsArgs.end_date args)
             (GetCampaignStatsArgs.metrics args))
          (call_tool server "get_campaign_stats" arguments))
  /\ (forall resp, Response.content resp = "" -> decoded resp = inr (JDict []))
  /\ is_valid (AdAccount.validate []) = false
  /\ is_valid (Campaign.validate []) = false
  /\ is_valid (CampaignStats.validate []) = false.
Proof.
  intros server self.
  split; [|split; [|split; [|split; [|split]]]].
  - eapply (@shields_of_request _ env); intros w.
    + apply get_ad_accounts_eq.
    + rewrite call_tool_eq. simpl. apply handle_get_ad_accounts_eq.
  - intros args Hargs. eapply (@shields_of_request _ env); intros w.
    + apply get_campaigns_eq.
    + rewrite call_tool_eq. simpl.
      rewrite handle_get_campaigns_eq, Hargs. reflexivity.
  - intros args Hargs. eapply (@shields_of_request _ env); intros w.
    + apply get_campaign_details_eq.
    + rewrite call_tool_eq. simpl.
      rewrite handle_get_campaign_details_eq, Hargs. reflexivity.
  - intros args Hargs. eapply (@shields_of_request _ env); intros w.
    + apply get_campaign_stats_eq.
    + rewrite call_tool_eq. simpl.
      rewrite handle_get_campaign_stats_eq, Hargs. reflexivity.
  - intros resp Hempty. unfold decoded. now rewrite Hempty.
  - repeat split; reflexivity.
Qed.

(** C7 does not hold of the code: evaluated on a remote that answers 404
    with the error body [{"error": {"message": "Campaign not found"}}], the
    request raises an error whose message is the text of the [HTTPError] and
    not the message of the body, and whose status code is [None] and not 404;
    the public operation wraps that text once more, again without a status
    code.  The response of an [HTTPError] is an error response, and an error
    response is falsy: both [e.response] tests of the handler fail. *)
Theorem error_body_and_status_are_lost `{Runtime} (config : UberAdsConfig.t) :
  let r := Sample.respond 404 "Not Found" (Some Sample.error_body) in
  let self := UberAdsClient.__init__ config in
  Response.json r
  = Some (JDict [("error", JDict [("message", JStr "Campaign not found")])])
  /\ fst (UberAdsClient._make_request self "GET" "/v1/ads/acct-1/campaigns/c1"
            [] (Sample.always r))
     = inl (UberAdsAPIError
              ("Uber Ads API error: " ++ exc_str (HTTPError r)) None)
  /\ fst (UberAdsClient.get_campaign_details self "acct-1" "c1"
            (Sample.always r))
     = inl (UberAdsAPIError
              ("Failed to retrieve campaign details: Uber Ads API error: "
               ++ exc_str (HTTPError r)) None).
Proof. repeat split; reflexivity. Qed.

Section ShieldingRuns.
#[local] Existing Instance Sample.runtime.

(** A successful response with an empty body: the listing of ad accounts
    raises its labelled error, and the call reports it. *)
Lemma response_failures_are_api_errors_witness :
  fst (UberAdsClient.get_ad_accounts Sample.client
         (Sample.always Sample.empty_response))
  = inl (UberAdsAPIError
           "Failed to retrieve ad accounts: validation error for AdAccount"
           None)
  /\ fst (call_tool Sample.server "get_ad_accounts" []
            (Sample.always Sample.empty_response))
     = inr (CallToolResult.error
              "Error retrieving ad accounts: Failed to retrieve ad accounts: validation error for AdAccount").
Proof.
  destruct (@response_failures_are_api_errors Sample.runtime Sample.no_env [])
    as [[_ [_ Haccounts]] _].
  apply (Haccounts (Sample.always Sample.empty_response)
           Sample.empty_response (JDict []) Sample.no_account_fields).
  - intros req. reflexivity.
  - reflexivity.
  - reflexivity.
  - reflexivity.
Defined.
End ShieldingRuns.

(** * Further properties *)

(** ** The query of a statistics report *)







(** ** The status shortcuts *)

Lemma status_filter_rejects (status : string) :
  ~ In status ["ACTIVE"; "PAUSED"; "ARCHIVED"] ->
  v_optional (v_literal StatusFilter.values) (JStr status)
  = Invalid (LineError [] literal_error) [].
Proof.
  intros Hout. unfold v_optional, v_literal.
  change StatusFilter.values
    with [("ACTIVE", StatusFilter.ACTIVE); ("PAUSED", StatusFilter.PAUSED);
          ("ARCHIVED", StatusFilter.ARCHIVED)].
  cbn [dict_get].
  destruct (String.eqb_spec "ACTIVE" status) as [<-|_];
    [exfalso; apply Hout; simpl; auto|].
  destruct (String.eqb_spec "PAUSED" status) as [<-|_];
    [exfalso; apply Hout; simpl; auto|].
  destruct (String.eqb_spec "ARCHIVED" status) as [<-|_];
    [exfalso; apply Hout; simpl; auto|].
  reflexivity.
Qed.

(** X2.  [get_campaigns_by_status] with a status other than ACTIVE, PAUSED
    or ARCHIVED raises the [ValidationError] of the options, not an
    [UberAdsAPIError], and sends nothing; with one of the three it is
    [get_campaigns] with the default limit and offset and that filter, whose
    query is the limit 50 and the status.  The three shortcuts are that call
    with their status. *)
Theorem status_shortcuts `{Runtime} (config : UberAdsConfig.t)
  (ad_account_id : string) (w : World) :
  let self := UberAdsClient.__init__ config in
  let filtered s :=
    GetCampaignsOptions.mk (Some 50%Z) (Some 0%Z) (Some s) None None None in
  (forall status,
     ~ In status ["ACTIVE"; "PAUSED"; "ARCHIVED"] ->
     UberAdsClient.get_campaigns_by_status self ad_account_id status w
     = (inl (ValidationError "GetCampaignsOptions"
               (LineError [LKey "status"] literal_error) []), w))
  /\ (forall s,
        UberAdsClient.get_campaigns_by_status self ad_account_id
          (StatusFilter.to_str s) w
        = UberAdsClient.get_campaigns self ad_account_id (Some (filtered s)) w
        /\ UberAdsClient.campaigns_params (filtered s)
           = [("limit", PInt 50); ("status", PStr (StatusFilter.to_str s))])
  /\ UberAdsClient.get_active_campaigns self ad_account_id w
     = UberAdsClient.get_campaigns self ad_account_id
         (Some (filtered StatusFilter.ACTIVE)) w
  /\ UberAdsClient.get_paused_campaigns self ad_account_id w
     = UberAdsClient.get_campaigns self ad_account_id
         (Some (filtered StatusFilter.PAUSED)) w
  /\ UberAdsClient.get_archived_campaigns self ad_account_id w
     = UberAdsClient.get_campaigns self ad_account_id
         (Some (filtered StatusFilter.ARCHIVED)) w.
Proof.
  intros self filtered. split; [|split; [|repeat split]].
  - intros status Hout.
    unfold UberAdsClient.get_campaigns_by_status, bind, lift, construct,
      GetCampaignsOptions.validate, with_default.
    cbn -[v_optional v_literal StatusFilter.values].
    rewrite (status_filter_rejects Hout). reflexivity.
  - intros s. split; destruct s; reflexivity.
Qed.

Section ShortcutRuns.
#[local] Existing Instance Sample.runtime.

(** DRAFT is a status of a campaign and not one of the filter. *)
Lemma status_shortcuts_witness :
  UberAdsClient.get_campaigns_by_status Sample.client "acct-1" "DRAFT"
    Sample.unreachable
  = (inl (ValidationError "GetCampaignsOptions"
            (LineError [LKey "status"] literal_error) []),
     Sample.unreachable).
Proof.
  apply (proj1 (@status_shortcuts Sample.runtime
                  (UberAdsMCPServer._load_config Sample.no_env) "acct-1"
                  Sample.unreachable)).
  simpl. intros [E|[E|[E|[]]]]; discriminate E.
Defined.
End ShortcutRuns.

(** ** Dumping and validating the other entities *)

Section OtherRoundTrips.
Context `{Runtime}.

Lemma CampaignStatsBreakdown_roundtrip (a : CampaignStatsBreakdown.t) :
  v_model CampaignStatsBreakdown.validate
    (CampaignStatsBreakdown.model_dump a) = Valid a.
Proof. destruct a. reflexivity. Qed.

Lemma CampaignStats_validate_dump (a : CampaignStats.t) :
  v_model CampaignStats.validate (CampaignStats.model_dump a) = Valid a.
Proof.
  destruct a as [campaign_id impressions clicks spend conversions ctr cpm cpc
                   conversion_rate date_range breakdown].
  unfold CampaignStats.model_dump, v_model, CampaignStats.validate, required,
    with_default.
  cbn -[v_optional v_dict d_optional d_dict v_list d_list].
  rewrite (v_dict_dump v_str JStr v_str_dump).
  rewrite (v_optional_dump
             (v_list (v_model CampaignStatsBreakdown.validate))
             (d_list CampaignStatsBreakdown.model_dump)).
  - reflexivity.
  - apply v_list_dump, CampaignStatsBreakdown_roundtrip.
  - intros ?. unfold d_list. discriminate.
Qed.
End OtherRoundTrips.

(** X3.  An ad account and a statistics record, the per-day breakdown
    included, dumped to their JSON representation and built again from it,
    are the entities they were. *)
Theorem accounts_and_stats_roundtrip `{Runtime} (account : AdAccount.t)
  (stats : CampaignStats.t) :
  construct "AdAccount" AdAccount.validate (AdAccount.model_dump account)
  = inr account
  /\ construct "CampaignStats" CampaignStats.validate
       (CampaignStats.model_dump stats) = inr stats.
Proof.
  split.
  - destruct account. reflexivity.
  - pose proof (CampaignStats_validate_dump stats) as Hv.
    unfold construct. unfold CampaignStats.model_dump, v_model in *.
    now rewrite Hv.
Qed.

(** ** Calls that deliver, and calls that give up *)

Section Delivery.
Context `{Runtime}.
Variable env : string -> option string.

Let server : UberAdsMCPServer.t := UberAdsMCPServer.__init__ env.
Let self : UberAdsClient.t := UberAdsMCPServer.client server.

Lemma delivers_of_request (A : Type) (what label endpoint : string)
  (params : list (string * param_value)) (pure : json -> exn + A)
  (payload : A -> json) (call : M CallToolResult.t) :
  (forall w,
     call w
     = let (r, w') :=
         UberAdsClient._make_request self "GET" endpoint params w in
       (inr (reported what label payload (and_then r pure)), w')) ->
  delivers pure payload (request_of self "GET" endpoint params) call.
Proof.
  intros Hcall w resp body a Hresp Hok Hbody Hpure.
  pose proof (make_request_ok (UberAdsMCPServer._load_config env) endpoint
                params w (Hresp _) Hok) as Hreq.
  change (UberAdsClient.__init__ (UberAdsMCPServer._load_config env))
    with self in Hreq.
  rewrite Hcall, Hreq, Hbody. simpl. now rewrite Hpure.
Qed.

Lemma gives_up_of_request (A : Type) (what label endpoint : string)
  (params : list (string * param_value)) (pure : json -> exn + A)
  (payload : A -> json) (call : M CallToolResult.t) :
  (forall w,
     call w
     = let (r, w') :=
         UberAdsClient._make_request self "GET" endpoint params w in
       (inr (reported what label payload (and_then r pure)), w')) ->
  gives_up what label (request_of self "GET" endpoint params) call.
Proof.
  intros Hcall w Hall.
  destruct (make_request_exhausted (UberAdsMCPServer._load_config env)
              endpoint params w) as [e He].
  { intros i Hi.
    specialize (Hall (request_of self "GET" endpoint params) i Hi).
    change (UberAdsClient.__init__ (UberAdsMCPServer._load_config env))
      with self.
    destruct (remote w _ i) as [r|err]; simpl; [|exact I].
    split; [reflexivity|].
    exact (mem_Z_In (Response.status_code r) TRANSIENT Hall). }
  change (UberAdsClient.__init__ (UberAdsMCPServer._load_config env))
    with self in He.
  exists e. rewrite Hcall, He. reflexivity.
Qed.
End Delivery.

(** X4.  A call of a tool whose arguments validate, answered at the first
    attempt by a successful response whose body the operation turns into
    entities, makes that one attempt and returns the success envelope: its
    text is the serialised list of the dumped entities (the dumped campaign,
    for the details), and [isError] is false. *)
Theorem tool_calls_deliver `{Runtime} (env : string -> option string)
  (arguments : dict) :
  let server := UberAdsMCPServer.__init__ env in
  let self := UberAdsMCPServer.client server in
  delivers (entities "AdAccount" AdAccount.validate)
    (fun accounts => JList (map AdAccount.model_dump accounts))
    (request_of self "GET" "/v1/ads" [])
    (call_tool server "get_ad_accounts" arguments)
  /\ (forall args,
        GetCampaignsArgs.validate arguments = Valid args ->
        delivers (entities "Campaign" Campaign.validate)
          (fun campaigns => JList (map Campaign.model_dump campaigns))
          (request_of self "GET"
             ("/v1/ads/" ++ GetCampaignsArgs.ad_account_id args
              ++ "/campaigns")
             (UberAdsClient.campaigns_params (listing_options args)))
          (call_tool server "get_campaigns" arguments))
  /\ (forall args,
        GetCampaignDetailsArgs.validate arguments = Valid args ->
        delivers (entity "Campaign" Campaign.validate) Campaign.model_dump
          (request_of self "GET"
             ("/v1/ads/" ++ GetCampaignDetailsArgs.ad_account_id args
              ++ "/campaigns/" ++ GetCampaignDetailsArgs.campaign_id args)
             [])
          (call_tool server "get_campaign_details" arguments))
  /\ (forall args,
        GetCampaignStatsArgs.validate arguments = Valid args ->
        delivers (entities "CampaignStats" CampaignStats.validate)
          (fun stats => JList (map CampaignStats.model_dump stats))
          (request_of self "GET"
             ("/v1/ads/" ++ GetCampaignStatsArgs.ad_account_id args
              ++ "/reports/campaigns")
             (UberAdsClient.stats_params
                (GetCampaignStatsArgs.campaign_ids args)
                (GetCampaignStatsArgs.start_date args)
                (GetCampaignStatsArgs.end_date args)
                (GetCampaignStatsArgs.metrics args)))
          (call_tool server "get_campaign_stats" arguments)).
Proof.
  intros server self. split; [|split; [|split]].
  - eapply (@delivers_of_request _ env); intros w.
    rewrite call_tool_eq. simpl. apply handle_get_ad_accounts_eq.
  - intros args Hargs. eapply (@delivers_of_request _ env); intros w.
    rewrite call_tool_eq. simpl.
    rewrite handle_get_campaigns_eq, Hargs. reflexivity.
  - intros args Hargs. eapply (@delivers_of_request _ env); intros w.
    rewrite call_tool_eq. simpl.
    rewrite handle_get_campaign_details_eq, Hargs. reflexivity.
  - intros args Hargs. eapply (@delivers_of_request _ env); intros w.
    rewrite call_tool_eq. simpl.
    rewrite handle_get_campaign_stats_eq, Hargs. reflexivity.
Qed.

(** X5.  A call of a tool whose arguments validate, against a remote whose
    every attempt fails transiently, makes four attempts with the one
    request and returns an error envelope: "Error retrieving ...: ", the
    operation's "Failed to retrieve ...: ", "Request error: " and the text
    of the exception of requests. *)
Theorem tool_calls_give_up `{Runtime} (env : string -> option string)
  (arguments : dict) :
  let server := UberAdsMCPServer.__init__ env in
  let self := UberAdsMCPServer.client server in
  gives_up "Error retrieving ad accounts: " "Failed to retrieve ad accounts: "
    (request_of self "GET" "/v1/ads" [])
    (call_tool server "get_ad_accounts" arguments)
  /\ (forall args,
        GetCampaignsArgs.validate arguments = Valid args ->
        gives_up "Error retrieving campaigns: "
          "Failed to retrieve campaigns: "
          (request_of self "GET"
             ("/v1/ads/" ++ GetCampaignsArgs.ad_account_id args
              ++ "/campaigns")
             (UberAdsClient.campaigns_params (listing_options args)))
          (call_tool server "get_campaigns" arguments))
  /\ (forall args,
        GetCampaignDetailsArgs.validate arguments = Valid args ->
        gives_up "Error retrieving campaign details: "
          "Failed to retrieve campaign details: "
          (request_of self "GET"
             ("/v1/ads/" ++ GetCampaignDetailsArgs.ad_account_id args
              ++ "/campaigns/" ++ GetCampaignDetailsArgs.campaign_id args)
             [])
          (call_tool server "get_campaign_details" arguments))
  /\ (forall args,
        GetCampaignStatsArgs.validate arguments = Valid args ->
        gives_up "Error retrieving campaign stats: "
          "Failed to retrieve campaign stats: "
          (request_of self "GET"
             ("/v1/ads/" ++ GetCampaignStatsArgs.ad_account_id args
              ++ "/reports/campaigns")
             (UberAdsClient.stats_params
                (GetCampaignStatsArgs.campaign_ids args)
                (GetCampaignStatsArgs.start_date args)
                (GetCampaignStatsArgs.end_date args)
                (GetCampaignStatsArgs.metrics args)))
          (call_tool server "get_campaign_stats" arguments)).
Proof.
  intros server self. split; [|split; [|split]].
  - eapply (@gives_up_of_request _ env); intros w.
    rewrite call_tool_eq. simpl. apply handle_get_ad_accounts_eq.
  - intros args Hargs. eapply (@gives_up_of_request _ env); intros w.
    rewrite call_tool_eq. simpl.
    rewrite handle_get_campaigns_eq, Hargs. reflexivity.
  - intros args Hargs. eapply (@gives_up_of_request _ env); intros w.
    rewrite call_tool_eq. simpl.
    rewrite handle_get_campaign_details_eq, Hargs. reflexivity.
  - intros args Hargs. eapply (@gives_up_of_request _ env); intros w.
    rewrite call_tool_eq. simpl.
    rewrite handle_get_campaign_stats_eq, Hargs. reflexivity.
Qed.

Section DeliveryRuns.
#[local] Existing Instance Sample.runtime.

(** A listing of campaigns answered with one campaign under [data]. *)
Lemma tool_calls_deliver_witness :
  call_tool Sample.server "get_campaigns" [("ad_account_id", JStr "acct-1")]
    (Sample.always
       (Sample.respond 200 "OK"
          (Some (JDict [("data", JList [Sample.campaign_json])]))))
  = (inr (CallToolResult.success "<json>"),
     logged
       (Sample.always
          (Sample.respond 200 "OK"
             (Some (JDict [("data", JList [Sample.campaign_json])]))))
       [request_of Sample.client "GET" "/v1/ads/acct-1/campaigns"
          [("limit", PInt 50)]]).
Proof.
  destruct (@tool_calls_deliver Sample.runtime Sample.no_env
              [("ad_account_id", JStr "acct-1")])
    as [_ [Hcampaigns _]].
  apply (Hcampaigns
           (GetCampaignsArgs.mk "acct-1" (Some 50%Z) (Some 0%Z) None)
           eq_refl _
           (Sample.respond 200 "OK"
              (Some (JDict [("data", JList [Sample.campaign_json])])))
           (JDict [("data", JList [Sample.campaign_json])])
           [Sample.campaign]).
  - intros req. reflexivity.
  - reflexivity.
  - reflexivity.
  - reflexivity.
Defined.

(** A listing of campaigns against a remote that always answers 503. *)
Lemma tool_calls_give_up_witness :
  exists e,
    call_tool Sample.server "get_campaigns" [("ad_account_id", JStr "acct-1")]
      (Sample.always (Sample.respond 503 "Service Unavailable" None))
    = (inr (CallToolResult.error
              ("Error retrieving campaigns: "
               ++ "Failed to retrieve campaigns: " ++ "Request error: "
               ++ str e)),
       logged (Sample.always (Sample.respond 503 "Service Unavailable" None))
         (repeat
            (request_of Sample.client "GET" "/v1/ads/acct-1/campaigns"
               [("limit", PInt 50)]) 4)).
Proof.
  destruct (@tool_calls_give_up Sample.runtime Sample.no_env
              [("ad_account_id", JStr "acct-1")])
    as [_ [Hcampaigns _]].
  apply (Hcampaigns
           (GetCampaignsArgs.mk "acct-1" (Some 50%Z) (Some 0%Z) None)
           eq_refl).
  intros req i _. simpl. right. right. right. left. reflexivity.
Defined.
End DeliveryRuns.

(** ** What a call sends at most *)


Section Bounded.
Context `{Runtime}.
Variable env : string -> option string.

Let server : UberAdsMCPServer.t := UberAdsMCPServer.__init__ env.
Let self : UberAdsClient.t := UberAdsMCPServer.client server.


End Bounded.




(** ** From the arguments of a listing to its query *)

Section ListingArguments.
Context `{Runtime}.

Lemma GetCampaignsArgs_validated (d : dict) (args : GetCampaignsArgs.t) :
  GetCampaignsArgs.validate d = Valid args ->
  required d "ad_account_id" v_str = Valid (GetCampaignsArgs.ad_account_id args)
  /\ with_default d "limit" (v_optional v_int) (Some 50%Z)
     = Valid (GetCampaignsArgs.limit args)
  /\ with_default d "offset" (v_optional v_int) (Some 0%Z)
     = Valid (GetCampaignsArgs.offset args)
  /\ with_default d "status" (v_optional (v_literal StatusFilter.values)) None
     = Valid (GetCampaignsArgs.status args).
Proof.
  unfold GetCampaignsArgs.validate.
  destruct (required d "ad_account_id" v_str),
    (with_default d "limit" (v_optional v_int) (Some 50%Z)),
    (with_default d "offset" (v_optional v_int) (Some 0%Z)),
    (with_default d "status" (v_optional (v_literal StatusFilter.values))
       None);
    simpl; intros Hv; inversion Hv; subst; simpl; auto.
Qed.

Lemma listing_keys (args : GetCampaignsArgs.t) :
  incl (keys (UberAdsClient.campaigns_params (listing_options args)))
    ["limit"; "offset"; "status"].
Proof.
  destruct args as [ad_account_id limit offset status].
  unfold UberAdsClient.campaigns_params, listing_options, truthy_int. simpl.
  destruct limit as [n|]; [destruct (Z.eqb n 0)|];
    (destruct offset as [m|]; [destruct (Z.eqb m 0)|]);
    destruct status; simpl; intros k Hk; simpl in *; intuition.
Qed.
End ListingArguments.

(** X7.  How the arguments of the [get_campaigns] tool reach the query of
    its request, for a mapping that validates.  An absent limit is sent as
    the default 50, a null limit is not sent, an integer limit is sent
    unless it is 0; an absent offset is not sent (its default 0 is falsy),
    an integer offset is sent unless it is 0; the status is sent when given;
    and nothing but limit, offset and status is ever in the query: the tool
    never sends a sort order or an objective. *)
Theorem listing_arguments_reach_the_query `{Runtime} (arguments : dict)
  (args : GetCampaignsArgs.t) :
  GetCampaignsArgs.validate arguments = Valid args ->
  let query := UberAdsClient.campaigns_params (listing_options args) in
  (dict_get "limit" arguments = None ->
   dict_get "limit" query = Some (PInt 50))
  /\ (dict_get "limit" arguments = Some JNull ->
      dict_get "limit" query = None)
  /\ (forall n, dict_get "limit" arguments = Some (JInt n) ->
        dict_get "limit" query = if (n =? 0)%Z then None else Some (PInt n))
  /\ (dict_get "offset" arguments = None ->
      dict_get "offset" query = None)
  /\ (forall n, dict_get "offset" arguments = Some (JInt n) ->
        dict_get "offset" query = if (n =? 0)%Z then None else Some (PInt n))
  /\ (dict_get "status" arguments = None ->
      dict_get "status" query = None)
  /\ (forall s,
        dict_get "status" arguments = Some (JStr (StatusFilter.to_str s)) ->
        dict_get "status" query = Some (PStr (StatusFilter.to_str s)))
  /\ incl (keys query) ["limit"; "offset"; "status"].
Proof.
  intros Hv query.
  destruct (GetCampaignsArgs_validated _ Hv) as [_ [Hl [Ho Hs]]].
  destruct (campaigns_params_spec (listing_options args))
    as [Ql [Qo [Qs _]]].
  fold query in Ql, Qo, Qs. simpl in Ql, Qo, Qs.
  unfold with_default in Hl, Ho, Hs.
  repeat split.
  - intros E. rewrite E in Hl. inversion Hl as [Hl'].
    rewrite Ql, <- Hl'. reflexivity.
  - intros E. rewrite E in Hl. simpl in Hl. inversion Hl as [Hl'].
    rewrite Ql, <- Hl'. reflexivity.
  - intros n E. rewrite E in Hl. simpl in Hl. inversion Hl as [Hl'].
    rewrite Ql, <- Hl'. simpl. now destruct (n =? 0)%Z.
  - intros E. rewrite E in Ho. inversion Ho as [Ho'].
    rewrite Qo, <- Ho'. reflexivity.
  - intros n E. rewrite E in Ho. simpl in Ho. inversion Ho as [Ho'].
    rewrite Qo, <- Ho'. simpl. now destruct (n =? 0)%Z.
  - intros E. rewrite E in Hs. inversion Hs as [Hs'].
    rewrite Qs, <- Hs'. reflexivity.
  - intros s E. rewrite E in Hs.
    assert (Hlit : at_loc (LKey "status")
                     (v_optional (v_literal StatusFilter.values)
                        (JStr (StatusFilter.to_str s)))
                   = Valid (Some s)) by (destruct s; reflexivity).
    rewrite Hlit in Hs. inversion Hs as [Hs'].
    rewrite Qs, <- Hs'. reflexivity.
  - apply listing_keys.
Qed.

Section ListingRuns.
#[local] Existing Instance Sample.runtime.

(** A mapping with the account alone: the query is the limit 50. *)
Lemma listing_arguments_reach_the_query_witness :
  dict_get "limit"
    (UberAdsClient.campaigns_params
       (listing_options
          (GetCampaignsArgs.mk "acct-1" (Some 50%Z) (Some 0%Z) None)))
  = Some (PInt 50).
Proof.
  apply (@listing_arguments_reach_the_query Sample.runtime
           [("ad_account_id", JStr "acct-1")]
           (GetCampaignsArgs.mk "acct-1" (Some 50%Z) (Some 0%Z) None)
           eq_refl).
  reflexivity.
Defined.
End ListingRuns.

(** ** Asking twice *)


Section Twice.
Context `{Runtime}.
Variable server : UberAdsMCPServer.t.

Let self : UberAdsClient.t := UberAdsMCPServer.client server.



End Twice.


Section TwiceRuns.
#[local] Existing Instance Sample.runtime.

End TwiceRuns.

(** ** Recovering from transient failures *)


Section Recovery.
Context `{Runtime}.
Variable config : UberAdsConfig.t.

Let self : UberAdsClient.t := UberAdsClient.__init__ config.


End Recovery.


Section RecoveryRuns.
#[local] Existing Instance Sample.runtime.

End RecoveryRuns.

(** ** All the entities or none *)

Lemma construct_all_inv (A : Type) (title : string)
  (validate : dict -> validation A) (l : list json) :
  forall built,
    construct_all title validate l = inr built ->
    Forall2 (fun x a => construct title validate x = inr a) l built.
Proof.
  induction l as [|x l IH]; simpl; intros built Hb.
  - inversion Hb. constructor.
  - destruct (construct title validate x) as [e|a] eqn:Hx; [discriminate|].
    destruct (construct_all title validate l) as [e|rest];
      [discriminate|].
    inversion Hb. subst. constructor; [exact Hx|]. now apply IH.
Qed.

Lemma construct_all_fails (A : Type) (title : string)
  (validate : dict -> validation A) (l : list json) :
  (exists x, In x l /\ forall a, construct title validate x <> inr a) ->
  exists e, construct_all title validate l = inl e.
Proof.
  intros [x [Hin Hx]]. induction l as [|y l IH]; simpl; [contradiction|].
  destruct (construct title validate y) as [e|a] eqn:Hy; [eauto|].
  destruct Hin as [->|Hin].
  - exfalso. exact (Hx a Hy).
  - destruct (IH Hin) as [e He]. rewrite He. eauto.
Qed.

Section AllOrNothing.
Context `{Runtime}.
Variable config : UberAdsConfig.t.

Let self : UberAdsClient.t := UberAdsClient.__init__ config.

Lemma all_or_nothing_of_request (A : Type) (m : M (list A))
  (endpoint label title : string) (params : list (string * param_value))
  (validate : dict -> validation A) :
  (forall w,
     m w = let (r, w') :=
             UberAdsClient._make_request self "GET" endpoint params w in
           (relabel label (and_then r (entities title validate)), w')) ->
  all_or_nothing title validate m.
Proof.
  intros Hm w r d l Hr Hok Hd Hdata.
  pose proof (make_request_ok config endpoint params w (Hr _) Hok) as Hreq.
  fold self in Hreq.
  assert (Hrun : fst (m w)
                 = relabel label (construct_all title validate l)).
  { rewrite Hm, Hreq, Hd. simpl. unfold entities, py_get. now rewrite Hdata. }
  split.
  - intros built. rewrite Hrun. split.
    + destruct (construct_all title validate l) as [e|b] eqn:Hc; simpl;
        [discriminate|].
      intros Hb. inversion Hb. subst. now apply construct_all_inv.
    + intros Hall. now rewrite (@construct_all_Forall2 _ _ _ _ _ Hall).
  - intros Hbad.
    destruct (@construct_all_fails _ title validate l Hbad) as [e He].
    unfold raises_api_error. rewrite Hrun, He. simpl. eauto.
Qed.
End AllOrNothing.

(** X10.  For a successful response that holds a list under [data], each
    of [get_ad_accounts], [get_campaigns] and [get_campaign_stats] returns
    a list exactly when every element of the list builds an entity, and then
    the list of those entities in order (the empty list for the empty list);
    one element that does not build makes the whole operation raise: there
    are no partial results. *)
Theorem list_operations_are_all_or_nothing `{Runtime}
  (config : UberAdsConfig.t) (ad_account_id start_date end_date : string)
  (options : GetCampaignsOptions.t) (campaign_ids : list string)
  (metrics : option (list string)) :
  let self := UberAdsClient.__init__ config in
  all_or_nothing "AdAccount" AdAccount.validate
    (UberAdsClient.get_ad_accounts self)
  /\ all_or_nothing "Campaign" Campaign.validate
       (UberAdsClient.get_campaigns self ad_account_id (Some options))
  /\ all_or_nothing "CampaignStats" CampaignStats.validate
       (UberAdsClient.get_campaign_stats self ad_account_id campaign_ids
          start_date end_date metrics).
Proof.
  intros self. split; [|split];
    eapply (@all_or_nothing_of_request _ config); intros w.
  - apply get_ad_accounts_eq.
  - apply get_campaigns_eq.
  - apply get_campaign_stats_eq.
Qed.

(** X11.  For a successful response whose body is an object,
    [get_campaign_details] returns the campaign that the object under
    [data], or the body itself when it has no [data], validates as; a list
    under [data], which the listing accepts, makes it raise: a list is not a
    mapping to build a campaign from. *)
Theorem details_take_one_object `{Runtime} (config : UberAdsConfig.t)
  (ad_account_id campaign_id : string) (w : World) (r : Response.t)
  (d : dict) :
  next_response w r ->
  Response.ok r = true ->
  decoded r = inr (JDict d) ->
  let self := UberAdsClient.__init__ config in
  let outcome :=
    fst (UberAdsClient.get_campaign_details self ad_account_id campaign_id
           w) in
  (forall o c,
     dict_get "data" d = Some (JDict o) ->
     Campaign.validate o = Valid c -> outcome = inr c)
  /\ (forall c,
        dict_get "data" d = None ->
        Campaign.validate d = Valid c -> outcome = inr c)
  /\ (forall l,
        dict_get "data" d = Some (JList l) ->
        outcome
        = inl (UberAdsAPIError
                 ("Failed to retrieve campaign details: "
                  ++ str (TypeError (JList l))) None)).
Proof.
  intros Hr Hok Hd self outcome.
  assert (Hrun : outcome
                 = relabel "Failed to retrieve campaign details: "
                     (entity "Campaign" Campaign.validate (JDict d))).
  { unfold outcome, self. rewrite get_campaign_details_eq.
    rewrite (make_request_ok config _ _ w (Hr _) Hok), Hd. reflexivity. }
  rewrite Hrun. unfold entity, py_get. repeat split.
  - intros o c Hdata Hv. rewrite Hdata. unfold construct. now rewrite Hv.
  - intros c Hdata Hv. rewrite Hdata. unfold construct. now rewrite Hv.
  - intros l Hdata. rewrite Hdata. reflexivity.
Qed.

Section EntityRuns.
#[local] Existing Instance Sample.runtime.

(** A valid campaign followed by one with an unknown status: the listing
    raises, and the valid campaign is not returned. *)
Lemma list_operations_are_all_or_nothing_witness :
  raises_api_error
    (UberAdsClient.get_campaigns Sample.client "acct-1"
       (Some GetCampaignsOptions.default))
    (Sample.always
       (Sample.respond 200 "OK"
          (Some
             (JDict
                [("data",
                  JList [Sample.campaign_json; Sample.odd_campaign_json])])))).
Proof.
  destruct (@list_operations_are_all_or_nothing Sample.runtime
              (UberAdsMCPServer._load_config Sample.no_env)
              "acct-1" "2024-01-01" "2024-01-31" GetCampaignsOptions.default
              ["c1"] None)
    as [_ [Hcampaigns _]].
  refine (proj2 (Hcampaigns _ _
                   [("data",
                     JList [Sample.campaign_json; Sample.odd_campaign_json])]
                   [Sample.campaign_json; Sample.odd_campaign_json]
                   _ _ _ _) _).
  - intros req. reflexivity.
  - reflexivity.
  - reflexivity.
  - reflexivity.
  - exists Sample.odd_campaign_json. split; [simpl; auto|].
    intros a Ha. discriminate Ha.
Defined.

(** The details answered with a list of one campaign under [data]. *)
Lemma details_take_one_object_witness :
  fst (UberAdsClient.get_campaign_details Sample.client "acct-1" "c1"
         (Sample.always
            (Sample.respond 200 "OK"
               (Some (JDict [("data", JList [Sample.campaign_json])])))))
  = inl (UberAdsAPIError
           "Failed to retrieve campaign details: argument after ** must be a mapping"
           None).
Proof.
  refine (proj2 (proj2
            (@details_take_one_object Sample.runtime
               (UberAdsMCPServer._load_config Sample.no_env) "acct-1" "c1"
               (Sample.always
                  (Sample.respond 200 "OK"
                     (Some (JDict [("data", JList [Sample.campaign_json])]))))
               (Sample.respond 200 "OK"
                  (Some (JDict [("data", JList [Sample.campaign_json])])))
               [("data", JList [Sample.campaign_json])] _ _ _))
            [Sample.campaign_json] _).
  - intros req. reflexivity.
  - reflexivity.
  - reflexivity.
  - reflexivity.
Defined.
End EntityRuns.

(** ** The catalog and the validation *)

Section Catalog.
Context `{Runtime}.
Variable server : UberAdsMCPServer.t.

Lemma violated_campaigns (arguments : dict) (w : World) :
  violates GetCampaignsArgs.schema arguments ->
  exists text,
    call_tool server "get_campaigns" arguments w
    = (inr (CallToolResult.error text), w).
Proof.
  intros Hv. apply violates_not_ok in Hv.
  rewrite <- GetCampaignsArgs_conforms in Hv.
  destruct (GetCampaignsArgs.validate arguments) as [a|e es] eqn:E;
    [discriminate|].
  rewrite call_tool_eq. simpl. rewrite handle_get_campaigns_eq, E.
  unfold invalid_arguments. eauto.
Qed.

Lemma violated_details (arguments : dict) (w : World) :
  violates GetCampaignDetailsArgs.schema arguments ->
  exists text,
    call_tool server "get_campaign_details" arguments w
    = (inr (CallToolResult.error text), w).
Proof.
  intros Hv. apply violates_not_ok in Hv.
  rewrite <- GetCampaignDetailsArgs_conforms in Hv.
  destruct (GetCampaignDetailsArgs.validate arguments) as [a|e es] eqn:E;
    [discriminate|].
  rewrite call_tool_eq. simpl. rewrite handle_get_campaign_details_eq, E.
  unfold invalid_arguments. eauto.
Qed.

Lemma violated_stats (arguments : dict) (w : World) :
  violates GetCampaignStatsArgs.schema arguments ->
  exists text,
    call_tool server "get_campaign_stats" arguments w
    = (inr (CallToolResult.error text), w).
Proof.
  intros Hv. apply violates_not_ok in Hv.
  rewrite <- GetCampaignStatsArgs_conforms in Hv.
  destruct (GetCampaignStatsArgs.validate arguments) as [a|e es] eqn:E;
    [discriminate|].
  rewrite call_tool_eq. simpl. rewrite handle_get_campaign_stats_eq, E.
  unfold invalid_arguments. eauto.
Qed.

(** A required field that is absent violates the schema it is required
    in. *)
Lemma absent_violates (schema : list field_schema) (f : field_schema)
  (arguments : dict) :
  In f schema -> field_required f = true ->
  dict_get (field_name f) arguments = None ->
  violates schema arguments.
Proof.
  intros Hin Hreq Hnone. exists f. split; [exact Hin|]. now rewrite Hnone.
Qed.
End Catalog.

Ltac absent fld :=
  apply (@absent_violates _ fld _); [simpl; auto 10|reflexivity|assumption].

(** X12.  The catalog [list_tools] returns agrees with what [call_tool]
    does.  It advertises the four names the dispatcher recognises; the
    properties of each input schema are the declared fields of the tool's
    argument record, and its required names are the fields without a
    default; and what a schema requires is enforced: a call of an advertised
    tool with a mapping that lacks a required name returns an error envelope
    and sends nothing. *)
Theorem catalog_agrees_with_validation `{Runtime}
  (server : UberAdsMCPServer.t) :
  map Tool.name list_tools = TOOLS
  /\ map schema_properties list_tools
     = [[]; GetCampaignsArgs.fields; GetCampaignDetailsArgs.fields;
        GetCampaignStatsArgs.fields]
  /\ map schema_required list_tools
     = [[]; required_of GetCampaignsArgs.schema;
        required_of GetCampaignDetailsArgs.schema;
        required_of GetCampaignStatsArgs.schema]
  /\ (forall tool k arguments w,
        In tool list_tools ->
        In k (schema_required tool) ->
        dict_get k arguments = None ->
        exists text,
          call_tool server (Tool.name tool) arguments w
          = (inr (CallToolResult.error text), w)).
Proof.
  split; [reflexivity|]. split; [reflexivity|]. split; [reflexivity|].
  intros tool k arguments w Htool Hk Hnone.
  simpl in Htool.
  destruct Htool as [<-|[<-|[<-|[<-|[]]]]]; simpl in Hk.
  - contradiction.
  - destruct Hk as [<-|[]].
    apply violated_campaigns.
    absent (Field "ad_account_id" true (accepts v_str)).
  - apply violated_details.
    destruct Hk as [<-|[<-|[]]].
    + absent (Field "ad_account_id" true (accepts v_str)).
    + absent (Field "campaign_id" true (accepts v_str)).
  - apply violated_stats.
    destruct Hk as [<-|[<-|[<-|[<-|[]]]]].
    + absent (Field "ad_account_id" true (accepts v_str)).
    + absent (Field "campaign_ids" true (accepts (v_list v_str))).
    + absent (Field "start_date" true (accepts v_str)).
    + absent (Field "end_date" true (accepts v_str)).
Qed.

Section CatalogRuns.
#[local] Existing Instance Sample.runtime.

(** The statistics asked without an end date. *)
Lemma catalog_agrees_with_validation_witness :
  exists text,
    call_tool Sample.server "get_campaign_stats"
      [("ad_account_id", JStr "acct-1"); ("campaign_ids", JList [JStr "c1"]);
       ("start_date", JStr "2024-01-01")]
      Sample.unreachable
    = (inr (CallToolResult.error text), Sample.unreachable).
Proof.
  refine (proj2 (proj2 (proj2
            (@catalog_agrees_with_validation Sample.runtime Sample.server)))
            (nth 3 list_tools (Tool.mk "" "" JNull)) "end_date" _ _ _ _ _).
  - simpl. auto.
  - simpl. auto.
  - reflexivity.
Defined.
End CatalogRuns.

(** ** What the validation of the statistics arguments lets through *)

(** X13.  The arguments of [get_campaign_stats] are checked for their types
    only.  A mapping that gives the account and the two dates as strings and
    the campaigns and the metrics as lists of strings validates, to those
    very strings: a date need not have the form of a date, a metric need not
    be one of the six the catalog lists, and the list of campaigns may be
    empty. *)
Theorem stats_arguments_are_taken_verbatim `{Runtime} (arguments : dict)
  (ad_account_id start_date end_date : string)
  (campaign_ids metrics : list string) :
  dict_get "ad_account_id" arguments = Some (JStr ad_account_id) ->
  dict_get "campaign_ids" arguments = Some (JList (map JStr campaign_ids)) ->
  dict_get "start_date" arguments = Some (JStr start_date) ->
  dict_get "end_date" arguments = Some (JStr end_date) ->
  dict_get "metrics" arguments = Some (JList (map JStr metrics)) ->
  GetCampaignStatsArgs.validate arguments
  = Valid (GetCampaignStatsArgs.mk ad_account_id campaign_ids start_date
             end_date (Some metrics)).
Proof.
  intros Ha Hc Hs He Hm.
  unfold GetCampaignStatsArgs.validate, required, with_default.
  rewrite Ha, Hc, Hs, He, Hm.
  change (JList (map JStr campaign_ids)) with (d_list JStr campaign_ids).
  change (JList (map JStr metrics)) with (d_list JStr metrics).
  rewrite (v_list_dump v_str JStr v_str_dump).
  assert (Hmetrics : v_optional (v_list v_str) (d_list JStr metrics)
                     = Valid (Some metrics)).
  { unfold v_optional, d_list. fold (d_list JStr metrics).
    now rewrite (v_list_dump v_str JStr v_str_dump). }
  rewrite Hmetrics. reflexivity.
Qed.

Section StatsRuns.
#[local] Existing Instance Sample.runtime.

(** A start date that is no date and a metric the catalog does not list. *)
Lemma stats_arguments_are_taken_verbatim_witness :
  GetCampaignStatsArgs.validate
    [("ad_account_id", JStr "acct-1"); ("campaign_ids", JList []);
     ("start_date", JStr "yesterday"); ("end_date", JStr "2024-01-31");
     ("metrics", JList [JStr "bogus"])]
  = Valid (GetCampaignStatsArgs.mk "acct-1" [] "yesterday" "2024-01-31"
             (Some ["bogus"])).
Proof.
  apply (@stats_arguments_are_taken_verbatim Sample.runtime
           [("ad_account_id", JStr "acct-1"); ("campaign_ids", JList []);
            ("start_date", JStr "yesterday"); ("end_date", JStr "2024-01-31");
            ("metrics", JList [JStr "bogus"])]
           "acct-1" "yesterday" "2024-01-31" [] ["bogus"]);
    reflexivity.
Defined.
End StatsRuns.

(** ** The body of a successful response *)


Section BodyRuns.
#[local] Existing Instance Sample.runtime.

End BodyRuns.

(** ** What the validation of a campaign reports *)

Lemma status_outside (s : string) :
  ~ In s ["ACTIVE"; "PAUSED"; "ARCHIVED"; "DRAFT"] ->
  dict_get s Campaign.statuses = None.
Proof.
  intros Hout.
  change Campaign.statuses
    with [("ACTIVE", Campaign.ACTIVE); ("PAUSED", Campaign.PAUSED);
          ("ARCHIVED", Campaign.ARCHIVED); ("DRAFT", Campaign.DRAFT)].
  cbn [dict_get].
  destruct (String.eqb_spec "ACTIVE" s) as [<-|_];
    [exfalso; apply Hout; simpl; auto|].
  destruct (String.eqb_spec "PAUSED" s) as [<-|_];
    [exfalso; apply Hout; simpl; auto|].
  destruct (String.eqb_spec "ARCHIVED" s) as [<-|_];
    [exfalso; apply Hout; simpl; auto|].
  destruct (String.eqb_spec "DRAFT" s) as [<-|_];
    [exfalso; apply Hout; simpl; auto|].
  reflexivity.
Qed.

Lemma budget_type_outside (s : string) :
  ~ In s ["DAILY"; "LIFETIME"] -> dict_get s Campaign.budget_types = None.
Proof.
  intros Hout.
  change Campaign.budget_types
    with [("DAILY", Campaign.DAILY); ("LIFETIME", Campaign.LIFETIME)].
  cbn [dict_get].
  destruct (String.eqb_spec "DAILY" s) as [<-|_];
    [exfalso; apply Hout; simpl; auto|].
  destruct (String.eqb_spec "LIFETIME" s) as [<-|_];
    [exfalso; apply Hout; simpl; auto|].
  reflexivity.
Qed.

Lemma required_literal_outside (A : Type) (d : dict) (k s : string)
  (table : list (string * A)) :
  dict_get k d = Some (JStr s) ->
  dict_get s table = None ->
  errors_of (required d k (v_literal table))
  = [LineError [LKey k] literal_error].
Proof.
  intros Hk Hs. unfold required, v_literal. now rewrite Hk, Hs.
Qed.

(** X15.  Validating a mapping as a campaign lists every field without a
    default that the mapping lacks as missing, and lists a status that is
    not one of ACTIVE, PAUSED, ARCHIVED, DRAFT and a budget type that is not
    DAILY or LIFETIME as outside their literals; in each of these cases the
    mapping does not validate. *)
Theorem campaign_validation_reports `{Runtime} (d : dict) :
  let errors := errors_of (Campaign.validate d) in
  (forall k,
     In k ["id"; "name"; "status"; "objective"; "budget_type"; "start_time";
           "created_at"; "updated_at"] ->
     dict_get k d = None ->
     In (LineError [LKey k] missing) errors)
  /\ (forall s,
        dict_get "status" d = Some (JStr s) ->
        ~ In s ["ACTIVE"; "PAUSED"; "ARCHIVED"; "DRAFT"] ->
        In (LineError [LKey "status"] literal_error) errors)
  /\ (forall s,
        dict_get "budget_type" d = Some (JStr s) ->
        ~ In s ["DAILY"; "LIFETIME"] ->
        In (LineError [LKey "budget_type"] literal_error) errors)
  /\ (errors <> [] -> is_valid (Campaign.validate d) = false).
Proof.
  intros errors. unfold errors.
  assert (Hlast : errors_of (Campaign.validate d) <> [] ->
                  is_valid (Campaign.validate d) = false).
  { destruct (Campaign.validate d); simpl;
      [intros Hne; now contradiction Hne|reflexivity]. }
  split; [|split; [|split; [|exact Hlast]]]; clear Hlast;
    unfold Campaign.validate; rewrite ?errors_of_vap, ?errors_of_vmap.
  - intros k Hk Hnone. simpl in Hk.
    destruct Hk as [<-|[<-|[<-|[<-|[<-|[<-|[<-|[<-|[]]]]]]]]];
      rewrite (@required_missing _ _ _ _ Hnone);
      rewrite ?in_app_iff; simpl; tauto.
  - intros s Hs Hout.
    rewrite (@required_literal_outside _ _ _ _ _ Hs (status_outside Hout)).
    rewrite ?in_app_iff. simpl. tauto.
  - intros s Hs Hout.
    rewrite (@required_literal_outside _ _ _ _ _ Hs
               (budget_type_outside Hout)).
    rewrite ?in_app_iff. simpl. tauto.
Qed.

Section CampaignRuns.
#[local] Existing Instance Sample.runtime.

(** A campaign with the status COMPLETED. *)
Lemma campaign_validation_reports_witness :
  In (LineError [LKey "status"] literal_error)
    (errors_of (Campaign.validate
                  [("id", JStr "c2"); ("name", JStr "Camp B");
                   ("status", JStr "COMPLETED"); ("objective", JStr "REACH");
                   ("budget_type", JStr "DAILY");
                   ("start_time", JStr "2024-01-01");
                   ("created_at", JStr "2024-01-01");
                   ("updated_at", JStr "2024-01-02")])).
Proof.
  refine (proj1 (proj2
            (@campaign_validation_reports Sample.runtime _)) "COMPLETED" _ _).
  - reflexivity.
  - simpl. intros [E|[E|[E|[E|[]]]]]; discriminate E.
Defined.
End CampaignRuns.

(** ** Where the requests go *)


Section BaseRuns.
#[local] Existing Instance Sample.runtime.

End BaseRuns.

(** ** Keys the entities do not declare *)

Ltac same_fields :=
  intros d d' Hsame;
  unfold required, with_default;
  repeat match goal with
         | |- context [dict_get ?k d] =>
             rewrite (Hsame k) by (simpl; auto 20)
         end;
  reflexivity.

(** X17.  Building an entity from a mapping reads the declared fields of
    the entity and nothing else: two mappings that agree on those fields
    build alike, so keys the remote adds to an account, a campaign or a
    statistics record change nothing, wherever they stand. *)
Theorem entities_read_their_fields_only `{Runtime} :
  reads_only
    ["id"; "name"; "currency"; "timezone"; "status"; "created_at";
     "updated_at"] AdAccount.validate
  /\ reads_only
       ["id"; "name"; "status"; "objective"; "budget_type"; "daily_budget";
        "lifetime_budget"; "start_time"; "end_time"; "created_at";
        "updated_at"; "targeting"; "creative_specs"] Campaign.validate
  /\ reads_only
       ["campaign_id"; "impressions"; "clicks"; "spend"; "conversions";
        "ctr"; "cpm"; "cpc"; "conversion_rate"; "date_range"; "breakdown"]
       CampaignStats.validate.
Proof.
  split; [|split].
  - unfold AdAccount.validate. same_fields.
  - unfold Campaign.validate. same_fields.
  - unfold CampaignStats.validate. same_fields.
Qed.

Section FieldRuns.
#[local] Existing Instance Sample.runtime.

(** An account to which the remote added a key. *)
Lemma entities_read_their_fields_only_witness :
  AdAccount.validate
    [("id", JStr "acct-1"); ("owner", JStr "someone"); ("name", JStr "Main");
     ("currency", JStr "USD"); ("timezone", JStr "UTC");
     ("status", JStr "ACTIVE"); ("created_at", JStr "2024-01-01");
     ("updated_at", JStr "2024-01-02")]
  = AdAccount.validate
      [("id", JStr "acct-1"); ("name", JStr "Main"); ("currency", JStr "USD");
       ("timezone", JStr "UTC"); ("status", JStr "ACTIVE");
       ("created_at", JStr "2024-01-01"); ("updated_at", JStr "2024-01-02")].
Proof.
  apply (proj1 (@entities_read_their_fields_only Sample.runtime)).
  intros k Hk. simpl in Hk.
  destruct Hk as [<-|[<-|[<-|[<-|[<-|[<-|[<-|[]]]]]]]]; reflexivity.
Defined.
End FieldRuns.
